(** * CryptoBot: the Bybit historical price downloader

    A shallow embedding of [src/bybit_price_downloader.py] (class
    [BybitConnector]) and of the older copy of the same module kept at the
    top of the repository, followed by the properties of the pagination
    loop, of its error paths and of the CSV file it writes.

    Python integers are unbounded: they are [Z].  [a // b] is [Z.div] and
    [min] is [Z.min].  Strings are [string]; a candle is the list of strings
    of one row of the upstream answer.  The effects of the module (log
    records, HTTP requests, exceptions, files) are threaded through an
    explicit state. *)

From Stdlib Require Import ZArith Lia List String Ascii.
From stdpp Require Import gmap strings list pretty.

Open Scope Z_scope.

(** ** Data model *)

(** One candlestick, [list[str]] in the source. *)
Definition Candle := list string.

(** The fields set by [BybitConnector.__init__].  [end] is a keyword here,
    the field is [end_]. *)
Record BybitConnector := {
  category : string;
  symbol : string;
  interval : string;
  start : string;
  end_ : string
}.

(** The value built by [datetime.strptime]. *)
Record datetime := {
  year : Z; month : Z; day : Z; hour : Z; minute : Z; second : Z
}.

(** The query parameters of one request ([params] in [get_prices]). *)
Record Params := {
  p_category : string;
  p_symbol : string;
  p_interval : string;
  p_start : Z;
  p_limit : Z
}.

(** The decoded body of an answer, read only through [.get]: every key may
    be absent.  [retCode] is an integer, [retMsg] a string and
    [result.list] a list of candles when they are present. *)
Record ResultObject := { result_list : option (list Candle) }.

Record ResponseData := {
  retCode : option Z;
  retMsg : option string;
  result : option ResultObject
}.

(** What [response.json()] raises on a body that does not decode, with the
    message of the decoder: the [JSONDecodeError] of [requests] (2.27 and
    later), or the [ValueError] of the [json] module (before). *)
Inductive DecodeError :=
| RequestsJSONDecodeError (msg : string)
| PlainJSONDecodeError (msg : string).

(** The body of an HTTP answer: text that [response.json()] rejects or a
    decoded object. *)
Inductive Body :=
| NotJson (e : DecodeError)
| Json (response_data : ResponseData).

Record Response := {
  status_code : Z;
  reason : string;
  url : string;
  body : Body
}.

(** The subclasses of [requests.RequestException] that [requests.get] and
    [raise_for_status] raise. *)
Inductive RequestsErrorKind :=
| ConnectionError
| Timeout
| HTTPError.

(** What [requests.get] does: it raises (no answer was received) or it
    returns an answer. *)
Inductive HttpResult :=
| GetRaises (kind : RequestsErrorKind) (msg : string)
| GetReturns (response : Response).

(** The exceptions that leave the module.  A [ValueError] has its message
    and its [__cause__], set by [raise ... from e].  [JSONDecodeError] is
    the one of [requests]: an instance of [RequestException] and of
    [ValueError] at once. *)
#[warnings="-register-all"]
Inductive Exception :=
| ValueError (msg : string) (cause : option Exception)
| RequestException (kind : RequestsErrorKind) (msg : string)
| JSONDecodeError (msg : string)
| IOError (msg : string).

(** [str(e)] *)
Definition str (e : Exception) : string :=
  match e with
  | ValueError msg _ => msg
  | RequestException _ msg => msg
  | JSONDecodeError msg => msg
  | IOError msg => msg
  end.

(** [isinstance(e, requests.RequestException)] *)
Definition isinstance_RequestException (e : Exception) : bool :=
  match e with
  | RequestException _ _ | JSONDecodeError _ => true
  | ValueError _ _ | IOError _ => false
  end.

(** [isinstance(e, ValueError)] *)
Definition isinstance_ValueError (e : Exception) : bool :=
  match e with
  | ValueError _ _ | JSONDecodeError _ => true
  | RequestException _ _ | IOError _ => false
  end.

Inductive Level := INFO | WARNING | ERROR | CRITICAL.

Definition LogRecord : Type := Level * string.

Inductive Outcome (A : Type) :=
| Return (a : A)
| Raise (e : Exception).
Arguments Return {A} a.
Arguments Raise {A} e.

(** How one pass through the body of the [while] loop ends: at the bottom of
    the body, with the new accumulator and cursor, or at [break]. *)
Inductive Step :=
| Continue (all_candles : list Candle) (batch_start : Z)
| Break (all_candles : list Candle).

(** [conversion] in [_interval_to_seconds]. *)
Definition conversion : gmap string Z :=
  list_to_map
    [("1", 60); ("3", 180); ("5", 300); ("15", 900); ("30", 1800);
     ("60", 3600); ("120", 7200); ("240", 14400); ("360", 21600);
     ("720", 43200); ("D", 86400); ("W", 604800); ("M", 2592000)].

Definition PRICE_API_URL : string := "https://api.bybit.com/v5/market/kline".

Definition DATE_FORMAT : string := "%Y-%m-%d %H:%M:%S".

(** ** The CSV dialect of [csv.writer] and [csv.reader]

    Both are used with their defaults: delimiter [,], quote character
    [dquote], doubled quotes, minimal quoting, line terminator CR LF, not
    strict. *)

Definition COMMA : ascii := ","%char.
Definition QUOTE : ascii := "034"%char.
Definition CR : ascii := "013"%char.
Definition LF : ascii := "010"%char.

(** The characters that make the writer quote a field. *)
Definition special (c : ascii) : bool :=
  bool_decide (c = COMMA) || bool_decide (c = QUOTE)
  || bool_decide (c = CR) || bool_decide (c = LF).

Fixpoint needs_quotes (field : string) : bool :=
  match field with
  | EmptyString => false
  | String c rest => special c || needs_quotes rest
  end.

Fixpoint double_quotes (field : string) : string :=
  match field with
  | EmptyString => EmptyString
  | String c rest =>
      if bool_decide (c = QUOTE)
      then String QUOTE (String QUOTE (double_quotes rest))
      else String c (double_quotes rest)
  end.

(** One field as the writer appends it to the record. *)
Definition join_append (field : string) : string :=
  if needs_quotes field then
    String QUOTE (double_quotes field +:+ String QUOTE EmptyString)
  else field.

Fixpoint join_fields (row : list string) : string :=
  match row with
  | [] => EmptyString
  | [field] => join_append field
  | field :: rest => join_append field +:+ String COMMA (join_fields rest)
  end.

Definition lineterminator : string := String CR (String LF EmptyString).

(** [writer.writerow(row)]: a row made of one empty field is written as a
    pair of quotes. *)
Definition writerow (row : list string) : string :=
  match row with
  | [EmptyString] => String QUOTE (String QUOTE lineterminator)
  | _ => join_fields row +:+ lineterminator
  end.

(** [writer.writerows(rows)] *)
Fixpoint writerows (rows : list (list string)) : string :=
  match rows with
  | [] => EmptyString
  | row :: rest => writerow row +:+ writerows rest
  end.

(** The states of the parser of [csv.reader] that can be entered when no
    escape character is set. *)
Inductive ParserState :=
| START_RECORD
| START_FIELD
| IN_FIELD
| IN_QUOTED_FIELD
| QUOTE_IN_QUOTED_FIELD
| EAT_CRNL.

#[global] Instance ParserState_eq_dec : EqDecision ParserState.
Proof. solve_decision. Defined.

(** The reader: its state, the fields of the record being read and the
    characters of the field being read. *)
Record Reader := {
  state : ParserState;
  fields : list string;
  field : string
}.

Definition parse_reset : Reader :=
  {| state := START_RECORD; fields := []; field := EmptyString |}.

(** Each of the three updates also sets the next state. *)
Definition parse_save_field (self : Reader) (next : ParserState) : Reader :=
  {| state := next; fields := fields self ++ [field self];
     field := EmptyString |}.

Definition parse_add_char (self : Reader) (c : ascii) (next : ParserState)
  : Reader :=
  {| state := next; fields := fields self;
     field := field self +:+ String c EmptyString |}.

Definition set_state (self : Reader) (next : ParserState) : Reader :=
  {| state := next; fields := fields self; field := field self |}.

Definition is_newline (c : ascii) : bool :=
  bool_decide (c = LF) || bool_decide (c = CR).

(** One step of the parser.  The character [None] is the end-of-line mark
    that the reader feeds after the last character of every line; the
    result [None] is the error the reader raises. *)
Definition parse_process_char (self : Reader) (c : option ascii)
  : option Reader :=
  let start_field c :=
    match c with
    | None => Some (parse_save_field self START_RECORD)
    | Some c =>
        if is_newline c then Some (parse_save_field self EAT_CRNL)
        else if bool_decide (c = QUOTE)
        then Some (set_state self IN_QUOTED_FIELD)
        else if bool_decide (c = COMMA)
        then Some (parse_save_field self START_FIELD)
        else Some (parse_add_char self c IN_FIELD)
    end in
  match state self with
  | START_RECORD =>
      match c with
      | None => Some self
      | Some c' =>
          if is_newline c' then Some (set_state self EAT_CRNL)
          else start_field c
      end
  | START_FIELD => start_field c
  | IN_FIELD =>
      match c with
      | None => Some (parse_save_field self START_RECORD)
      | Some c =>
          if is_newline c then Some (parse_save_field self EAT_CRNL)
          else if bool_decide (c = COMMA)
          then Some (parse_save_field self START_FIELD)
          else Some (parse_add_char self c IN_FIELD)
      end
  | IN_QUOTED_FIELD =>
      match c with
      | None => Some self
      | Some c =>
          if bool_decide (c = QUOTE)
          then Some (set_state self QUOTE_IN_QUOTED_FIELD)
          else Some (parse_add_char self c IN_QUOTED_FIELD)
      end
  | QUOTE_IN_QUOTED_FIELD =>
      match c with
      | None => Some (parse_save_field self START_RECORD)
      | Some c =>
          if bool_decide (c = QUOTE)
          then Some (parse_add_char self c IN_QUOTED_FIELD)
          else if bool_decide (c = COMMA)
          then Some (parse_save_field self START_FIELD)
          else if is_newline c then Some (parse_save_field self EAT_CRNL)
          else Some (parse_add_char self c IN_FIELD)
      end
  | EAT_CRNL =>
      match c with
      | None => Some (set_state self START_RECORD)
      | Some c => if is_newline c then Some self else None
      end
  end.

(** A file opened with [newline=''] ends a line after LF, after CR LF,
    after a CR that no LF follows, and at the end of the text. *)
Definition line_ends (c : ascii) (rest : string) : bool :=
  match rest with
  | EmptyString => true
  | String c' _ =>
      bool_decide (c = LF)
      || (bool_decide (c = CR) && negb (bool_decide (c' = LF)))
  end.

(** What the reader yields when the lines run out. *)
Definition end_of_input (self : Reader) : list (list string) :=
  if bool_decide (field self <> EmptyString)
     || bool_decide (state self = IN_QUOTED_FIELD)
  then [fields self ++ [field self]]
  else [].

(** [list(csv.reader(file))] on the text of the file: the characters of a
    line go through the parser, then the end-of-line mark; a record is
    yielded, and the parser reset, each time a line leaves it in
    [START_RECORD]. *)
Fixpoint reader (text : string) (self : Reader)
  : option (list (list string)) :=
  match text with
  | EmptyString => Some (end_of_input self)
  | String c rest =>
      match parse_process_char self (Some c) with
      | None => None
      | Some self =>
          if line_ends c rest then
            match parse_process_char self None with
            | None => None
            | Some self =>
                if bool_decide (state self = START_RECORD) then
                  match reader rest parse_reset with
                  | None => None
                  | Some rows => Some (fields self :: rows)
                  end
                else reader rest self
            end
          else reader rest self
      end
  end.

(** [os.path.join(a, b)] of [posixpath]. *)
Definition os_path_join (a b : string) : string :=
  if String.prefix "/" b then b
  else if bool_decide (a = EmptyString) || String.prefix "/" (String.rev a)
  then a +:+ b
  else a +:+ "/" +:+ b.

(** The first row [save_to_csv] writes. *)
Definition HEADER : list string :=
  ["timestamp"; "open"; "high"; "low"; "close"; "volume"; "turnover"].

(** ** The module over its environment *)

Section Connector.

(** What the module does not own: the clock library ([datetime.strptime],
    which returns the message of the [ValueError] it raises, if it raises,
    and [datetime.timestamp], which reads the time zone of the machine and
    is taken with the [int(...)] around it), the network behind [requests.get]
    (its last argument is the [timeout]) and the file system.  The two
    operations that change the file system return the message of the
    [OSError] they raise, if they raise.  [write_file path text] is the
    whole block under [with open(path, ...)], in mode [w]: it returns
    no message when the block was left with all of [text] in the file.
    [open] makes or empties the file before anything is written to it, so
    the world that comes with a message may hold the file, empty or cut
    short; nothing is assumed about that world. *)
Variable strptime : string -> string -> string + datetime.
Variable timestamp : datetime -> Z.
Variable World : Type.
Variable requests_get :
  string -> Params -> option Z -> World -> HttpResult * World.
Variable path_exists : string -> World -> bool.
Variable makedirs : string -> World -> option string * World.
Variable write_file : string -> string -> World -> option string * World.

(** The state the effects act on: the outside world, the requests sent so
    far, each with what [requests.get] did for it, the writes of
    [save_to_csv] that were completed so far (path and text), the records
    handed to the logger and the lines that [print] was called with, all
    four oldest first.  What the handlers of the logger do with a record
    (the set-up of the application gives it a file and the console) is not
    in the state. *)
Record State := {
  world : World;
  sent : list (Params * HttpResult);
  written : list (string * string);
  log : list LogRecord;
  stdout : list string
}.

Definition Eff (A : Type) : Type := State -> Outcome A * State.

Definition ret {A} (a : A) : Eff A := fun st => (Return a, st).

Definition raise {A} (e : Exception) : Eff A := fun st => (Raise e, st).

Definition bind {A B} (m : Eff A) (k : A -> Eff B) : Eff B :=
  fun st =>
    match m st with
    | (Return a, st') => k a st'
    | (Raise e, st') => (Raise e, st')
    end.

Notation "x <- m ;; k" := (bind m (fun x => k))
  (at level 100, m at next level, k at level 200, right associativity).
Notation "m ;; k" := (bind m (fun _ => k))
  (at level 100, k at level 200, right associativity).

Definition logger (level : Level) (msg : string) : Eff unit :=
  fun st =>
    (Return tt,
     {| world := world st; sent := sent st; written := written st;
        log := log st ++ [(level, msg)]; stdout := stdout st |}).

Definition print (line : string) : Eff unit :=
  fun st =>
    (Return tt,
     {| world := world st; sent := sent st; written := written st;
        log := log st; stdout := stdout st ++ [line] |}).

(** [requests.get(url, params=params, timeout=timeout)] *)
Definition get (url : string) (params : Params) (timeout : option Z)
  : Eff Response :=
  fun st =>
    let '(r, w) := requests_get url params timeout (world st) in
    let st' :=
      {| world := w; sent := sent st ++ [(params, r)]; written := written st;
         log := log st; stdout := stdout st |} in
    match r with
    | GetRaises kind msg => (Raise (RequestException kind msg), st')
    | GetReturns response => (Return response, st')
    end.

(** [response.raise_for_status()]: an [HTTPError] for the statuses 400 to
    599, nothing for the others. *)
Definition raise_for_status (response : Response) : Eff unit :=
  if decide (400 <= status_code response < 500) then
    raise (RequestException HTTPError
             (pretty (status_code response) +:+ " Client Error: "
                +:+ reason response +:+ " for url: " +:+ url response))
  else if decide (500 <= status_code response < 600) then
    raise (RequestException HTTPError
             (pretty (status_code response) +:+ " Server Error: "
                +:+ reason response +:+ " for url: " +:+ url response))
  else ret tt.

(** [response.json()] *)
Definition json (response : Response) : Eff ResponseData :=
  match body response with
  | NotJson (RequestsJSONDecodeError msg) => raise (JSONDecodeError msg)
  | NotJson (PlainJSONDecodeError msg) => raise (ValueError msg None)
  | Json response_data => ret response_data
  end.

(** [BybitConnector.__init__] only stores its arguments. *)
Definition __init__ (category symbol interval start end_ : string)
  : Outcome BybitConnector :=
  Return {| category := category; symbol := symbol; interval := interval;
            start := start; end_ := end_ |}.

Definition _to_unix_timestamp (date_str : string) : Eff Z :=
  match strptime date_str DATE_FORMAT with
  | inr dt => ret (timestamp dt)
  | inl msg =>
      logger ERROR
        ("Invalid date format: " +:+ date_str
           +:+ ". Expected 'YYYY-MM-DD HH:MM:SS'.") ;;
      raise (ValueError "Invalid date format. Use 'YYYY-MM-DD HH:MM:SS'."
               (Some (ValueError msg None)))
  end.

Definition _interval_to_seconds (interval : string) : Eff Z :=
  (if decide (conversion !! interval = None) then
     logger WARNING
       ("Unknown interval '" +:+ interval
          +:+ "'. Defaulting to 'D' (86400 seconds).")
   else ret tt) ;;
  ret (default 86400 (conversion !! interval)).

(** The two [except] clauses around the body of the loop, tried in their
    order: both log and re-raise the exception they caught. *)
Definition try_except {A} (body : Eff A) : Eff A :=
  fun st =>
    match body st with
    | (Return a, st') => (Return a, st')
    | (Raise e, st') =>
        if isinstance_RequestException e then
          (logger ERROR ("HTTP request failed: " +:+ str e) ;; raise e) st'
        else
          (logger CRITICAL
             ("Unexpected error during API request: " +:+ str e) ;;
           raise e) st'
    end.

(** One pass through the body of the [while] loop of [get_prices]. *)
Definition get_prices_body (self : BybitConnector)
    (limit end_timestamp seconds_per_candle : Z)
    (all_candles : list Candle) (batch_start : Z) : Eff Step :=
  let max_batch_end := batch_start + limit * seconds_per_candle in
  let batch_end := Z.min max_batch_end end_timestamp in
  let candles_limit := (batch_end - batch_start) / seconds_per_candle in
  let params :=
    {| p_category := category self; p_symbol := symbol self;
       p_interval := interval self; p_start := batch_start;
       p_limit := candles_limit |} in
  try_except
    (response <- get PRICE_API_URL params (Some 10) ;;
     raise_for_status response ;;
     response_data <- json response ;;
     if decide (retCode response_data <> Some 0) then
       let error_message :=
         default "Unknown error from API." (retMsg response_data) in
       logger ERROR ("API returned an error: " +:+ error_message) ;;
       raise (ValueError ("API error: " +:+ error_message) None)
     else
       let candles :=
         default [] (result_list (default {| result_list := None |}
                                    (result response_data))) in
       match candles with
       | [] =>
           logger INFO "No more data available for the given range." ;;
           ret (Break all_candles)
       | _ :: _ => ret (Continue (all_candles ++ candles) batch_end)
       end).

(** The [while batch_start < end_timestamp] loop.  [fuel] bounds the number
    of passes through the body; [None] says that the bound was reached with
    the loop still running. *)
Fixpoint get_prices_while (fuel : nat) (self : BybitConnector)
    (limit end_timestamp seconds_per_candle : Z)
    (all_candles : list Candle) (batch_start : Z) (st : State)
  : option (Outcome (list Candle) * State) :=
  if decide (batch_start < end_timestamp) then
    match fuel with
    | O => None
    | S fuel' =>
        match get_prices_body self limit end_timestamp seconds_per_candle
                all_candles batch_start st with
        | (Return (Continue all_candles' batch_start'), st') =>
            get_prices_while fuel' self limit end_timestamp
              seconds_per_candle all_candles' batch_start' st'
        | (Return (Break all_candles'), st') =>
            Some (Return all_candles', st')
        | (Raise e, st') => Some (Raise e, st')
        end
    end
  else Some (Return all_candles, st).

(** The accumulator, the cursor and the state after [n] passes through the
    body of the loop that all reached its bottom; [None] when the loop does
    not make [n] such passes. *)
Fixpoint passes (n : nat) (self : BybitConnector)
    (limit end_timestamp seconds_per_candle : Z)
    (all_candles : list Candle) (batch_start : Z) (st : State)
  : option (list Candle * Z * State) :=
  match n with
  | O => Some (all_candles, batch_start, st)
  | S n' =>
      if decide (batch_start < end_timestamp) then
        match get_prices_body self limit end_timestamp seconds_per_candle
                all_candles batch_start st with
        | (Return (Continue all_candles' batch_start'), st') =>
            passes n' self limit end_timestamp seconds_per_candle
              all_candles' batch_start' st'
        | _ => None
        end
      else None
  end.

Definition get_prices (self : BybitConnector) (limit : Z) (fuel : nat)
    (st : State) : option (Outcome (list Candle) * State) :=
  match (start_timestamp <- _to_unix_timestamp (start self) ;;
         end_timestamp <- _to_unix_timestamp (end_ self) ;;
         seconds_per_candle <- _interval_to_seconds (interval self) ;;
         ret (start_timestamp, end_timestamp, seconds_per_candle)) st with
  | (Raise e, st') => Some (Raise e, st')
  | (Return (start_timestamp, end_timestamp, seconds_per_candle), st') =>
      match get_prices_while fuel self limit end_timestamp
              seconds_per_candle [] start_timestamp st' with
      | None => None
      | Some (Raise e, st'') => Some (Raise e, st'')
      | Some (Return all_candles, st'') =>
          Some ((logger INFO
                   ("Fetched " +:+ pretty (length all_candles)
                      +:+ " candlesticks.") ;;
                 ret all_candles) st'')
      end
  end.

(** [os.path.exists], [os.makedirs] and the [with open(...)] block, which
    is recorded in [written] when it was completed, and raises otherwise. *)
Definition exists_ (path : string) : Eff bool :=
  fun st => (Return (path_exists path (world st)), st).

Definition os_makedirs (path : string) : Eff unit :=
  fun st =>
    let '(r, w) := makedirs path (world st) in
    let st' :=
      {| world := w; sent := sent st; written := written st;
         log := log st; stdout := stdout st |} in
    match r with
    | Some msg => (Raise (IOError msg), st')
    | None => (Return tt, st')
    end.

Definition open_write (path text : string) : Eff unit :=
  fun st =>
    let '(r, w) := write_file path text (world st) in
    match r with
    | Some msg =>
        (Raise (IOError msg),
         {| world := w; sent := sent st; written := written st;
            log := log st; stdout := stdout st |})
    | None =>
        (Return tt,
         {| world := w; sent := sent st;
            written := written st ++ [(path, text)]; log := log st;
            stdout := stdout st |})
    end.

Definition save_to_csv (self : BybitConnector) (candles : list Candle)
    (directory : string) : Eff unit :=
  (present <- exists_ directory ;;
   if present then ret tt else os_makedirs directory) ;;
  let filename :=
    symbol self +:+ "_" +:+ interval self +:+ "_" +:+ start self +:+ "_"
      +:+ end_ self +:+ ".csv" in
  let file_path := os_path_join directory filename in
  fun st =>
    match (open_write file_path (writerow HEADER +:+ writerows candles) ;;
           logger INFO ("Data has been saved to " +:+ file_path +:+ ".")) st with
    | (Raise (IOError msg), st') =>
        (logger ERROR
           ("Failed to write data to " +:+ file_path +:+ ": " +:+ msg) ;;
         raise (IOError msg)) st'
    | r => r
    end.

(** The block under [if __name__ == "__main__"]: build the connector of the
    example, fetch with the default page limit, save under [./data/raw]. *)
Definition main (fuel : nat) (st : State) : option (Outcome unit * State) :=
  match __init__ "inverse" "BTCUSD" "M" "2024-12-01 00:00:00"
          "2024-12-04 00:00:00" with
  | Raise e => Some (Raise e, st)
  | Return connector =>
      match get_prices connector 1000 fuel st with
      | None => None
      | Some (Raise e, st') => Some (Raise e, st')
      | Some (Return candles, st') =>
          let directory := "./data/raw" in
          Some (save_to_csv connector candles directory st')
      end
  end.

End Connector.

Arguments world {World} _.
Arguments sent {World} _.
Arguments written {World} _.
Arguments log {World} _.
Arguments stdout {World} _.
Arguments ret {World A} a st.
Arguments raise {World A} e st.
Arguments bind {World A B} m k st.
Arguments logger {World} level msg st.
Arguments print {World} line st.
Arguments get {World} requests_get url params timeout st.
Arguments raise_for_status {World} response st.
Arguments json {World} response st.
Arguments open_write {World} write_file path text st.
Arguments exists_ {World} path_exists path st.
Arguments os_makedirs {World} makedirs path st.
Arguments _to_unix_timestamp strptime timestamp {World} date_str st.
Arguments _interval_to_seconds {World} interval st.
Arguments try_except {World A} body st.
Arguments get_prices_body {World} requests_get self limit end_timestamp
  seconds_per_candle all_candles batch_start st.
Arguments get_prices_while {World} requests_get fuel self limit
  end_timestamp seconds_per_candle all_candles batch_start st.
Arguments passes {World} requests_get n self limit end_timestamp
  seconds_per_candle all_candles batch_start st.
Arguments get_prices strptime timestamp {World} requests_get self limit
  fuel st.
Arguments save_to_csv {World} path_exists makedirs write_file self candles
  directory st.
Arguments main strptime timestamp {World} requests_get path_exists makedirs
  write_file fuel st.

Notation "x <- m ;; k" := (bind m (fun x => k))
  (at level 100, m at next level, k at level 200, right associativity).
Notation "m ;; k" := (bind m (fun _ => k))
  (at level 100, k at level 200, right associativity).

(** ** The older copy of the module

    [bybit_price_downloader.py] at the top of the repository: no logging, no
    [try], no time-out, no [raise_for_status], a header of six names and a
    file written in the current directory. *)

Module Legacy.

Section Connector.

Variable strptime : string -> string -> string + datetime.
Variable timestamp : datetime -> Z.
Variable World : Type.
Variable requests_get :
  string -> Params -> option Z -> World -> HttpResult * World.
Variable write_file : string -> string -> World -> option string * World.

Definition __init__ (category symbol interval start end_ : string)
  : Outcome BybitConnector :=
  Return {| category := category; symbol := symbol; interval := interval;
            start := start; end_ := end_ |}.

Definition _to_unix_timestamp (date_str : string) : Eff World Z :=
  match strptime date_str DATE_FORMAT with
  | inr dt => ret (timestamp dt)
  | inl msg => raise (ValueError msg None)
  end.

Definition _interval_to_seconds (interval : string) : Z :=
  default 86400 (conversion !! interval).

(** One pass through the body of the [while] loop.  An absent [retMsg] is
    printed as [None] by the f-string. *)
Definition get_prices_body (self : BybitConnector)
    (limit end_timestamp seconds_per_candle : Z)
    (all_candles : list Candle) (batch_start : Z) : Eff World Step :=
  let max_batch_end := batch_start + limit * seconds_per_candle in
  let batch_end := Z.min max_batch_end end_timestamp in
  let candles_limit := (batch_end - batch_start) / seconds_per_candle in
  let params :=
    {| p_category := category self; p_symbol := symbol self;
       p_interval := interval self; p_start := batch_start;
       p_limit := candles_limit |} in
  response <- get requests_get PRICE_API_URL params None ;;
  response_data <- json response ;;
  if decide (status_code response <> 200 \/ retCode response_data <> Some 0)
  then
    raise (ValueError ("API error: " +:+ default "None" (retMsg response_data))
             None)
  else
    let candles :=
      default [] (result_list (default {| result_list := None |}
                                 (result response_data))) in
    match candles with
    | [] => ret (Break all_candles)
    | _ :: _ => ret (Continue (all_candles ++ candles) batch_end)
    end.

Fixpoint get_prices_while (fuel : nat) (self : BybitConnector)
    (limit end_timestamp seconds_per_candle : Z)
    (all_candles : list Candle) (batch_start : Z) (st : State World)
  : option (Outcome (list Candle) * State World) :=
  if decide (batch_start < end_timestamp) then
    match fuel with
    | O => None
    | S fuel' =>
        match get_prices_body self limit end_timestamp seconds_per_candle
                all_candles batch_start st with
        | (Return (Continue all_candles' batch_start'), st') =>
            get_prices_while fuel' self limit end_timestamp
              seconds_per_candle all_candles' batch_start' st'
        | (Return (Break all_candles'), st') =>
            Some (Return all_candles', st')
        | (Raise e, st') => Some (Raise e, st')
        end
    end
  else Some (Return all_candles, st).

Definition get_prices (self : BybitConnector) (limit : Z) (fuel : nat)
    (st : State World) : option (Outcome (list Candle) * State World) :=
  match (start_timestamp <- _to_unix_timestamp (start self) ;;
         end_timestamp <- _to_unix_timestamp (end_ self) ;;
         ret (start_timestamp, end_timestamp)) st with
  | (Raise e, st') => Some (Raise e, st')
  | (Return (start_timestamp, end_timestamp), st') =>
      get_prices_while fuel self limit end_timestamp
        (_interval_to_seconds (interval self)) [] start_timestamp st'
  end.

Definition HEADER : list string :=
  ["timestamp"; "open"; "high"; "low"; "close"; "volume"].

Definition save_to_csv (self : BybitConnector) (candles : list Candle)
  : Eff World unit :=
  let filename :=
    symbol self +:+ "_" +:+ interval self +:+ "_" +:+ start self +:+ "_"
      +:+ end_ self +:+ ".csv" in
  open_write write_file filename (writerow HEADER +:+ writerows candles) ;;
  print ("Data has been saved to " +:+ filename).

End Connector.

Arguments _to_unix_timestamp strptime timestamp {World} date_str st.
Arguments get_prices_body {World} requests_get self limit end_timestamp
  seconds_per_candle all_candles batch_start st.
Arguments get_prices_while {World} requests_get fuel self limit
  end_timestamp seconds_per_candle all_candles batch_start st.
Arguments get_prices strptime timestamp {World} requests_get self limit
  fuel st.
Arguments save_to_csv {World} write_file self candles st.

End Legacy.

(** ** An environment to run the model on

    A stand-in for the clock library and some networks, for the examples
    below.  [strptime] accepts the zero-padded text [YYYY-MM-DD HH:MM:SS]
    of a date that exists and answers every other text with the mismatch
    message of the library, which accepts a few more texts (fields that are
    not padded) and words some rejections differently.  [timestamp] reads
    the date in UTC. *)

Module Reference.

Fixpoint number (s : string) (acc : Z) : option Z :=
  match s with
  | EmptyString => Some acc
  | String c rest =>
      match Ascii.is_nat c with
      | Some d => number rest (10 * acc + Z.of_nat d)
      | None => None
      end
  end.

Definition is_leap (y : Z) : bool :=
  ((y mod 4 =? 0) && (negb (y mod 100 =? 0) || (y mod 400 =? 0))).

Definition days_in_month (y m : Z) : Z :=
  if (m =? 2) then (if is_leap y then 29 else 28)
  else if ((m =? 4) || (m =? 6) || (m =? 9) || (m =? 11)) then 30
  else 31.

Definition separators (s : string) : bool :=
  bool_decide (String.get 4 s = Some "-"%char)
  && bool_decide (String.get 7 s = Some "-"%char)
  && bool_decide (String.get 10 s = Some " "%char)
  && bool_decide (String.get 13 s = Some ":"%char)
  && bool_decide (String.get 16 s = Some ":"%char).

(** What the pattern of the format lets through, field by field: a month
    from 01 to 12, a day from 01 to 31, an hour to 23, a minute to 59 and a
    second to 61; a second from 62 on is read as one digit, and its last
    digit is left over.  What the calendar then refuses: the year 0, a day
    that the month does not have, a second above 59. *)
Definition parse (s : string) : option (string + datetime) :=
  if bool_decide (String.length s = 19%nat) && separators s then
    match number (substring 0 4 s) 0, number (substring 5 2 s) 0,
          number (substring 8 2 s) 0, number (substring 11 2 s) 0,
          number (substring 14 2 s) 0, number (substring 17 2 s) 0 with
    | Some y, Some m, Some d, Some h, Some mi, Some sec =>
        if ((1 <=? m) && (m <=? 12) && (1 <=? d) && (d <=? 31) && (h <=? 23)
            && (mi <=? 59))
        then
          if (61 <? sec) then
            Some (inl ("unconverted data remains: " +:+ substring 18 1 s))
          else if (y <? 1) then Some (inl "year 0 is out of range")
          else if (days_in_month y m <? d) then
            Some (inl "day is out of range for month")
          else if (59 <? sec) then Some (inl "second must be in 0..59")
          else Some (inr {| year := y; month := m; day := d; hour := h;
                            minute := mi; second := sec |})
        else None
    | _, _, _, _, _, _ => None
    end
  else None.

(** A clock library that reads only dates written in full, nineteen
    characters with every number padded: on those it answers as
    [datetime.strptime] does, with the messages of CPython up to 3.13; any
    other string is a mismatch for it. *)
Definition strptime (date_string format : string) : string + datetime :=
  match (if bool_decide (format = DATE_FORMAT) then parse date_string
         else None) with
  | Some r => r
  | None =>
      inl ("time data '" +:+ date_string +:+ "' does not match format '"
             +:+ format +:+ "'")
  end.

(** Days from 1970-01-01 to a date of the Gregorian calendar. *)
Definition days_from_civil (y m d : Z) : Z :=
  let y := if (m <=? 2) then y - 1 else y in
  let era := y / 400 in
  let yoe := y - era * 400 in
  let doy := (153 * (if (2 <? m) then m - 3 else m + 9) + 2) / 5 + d - 1 in
  let doe := yoe * 365 + yoe / 4 - yoe / 100 + doy in
  era * 146097 + doe - 719468.

Definition timestamp (dt : datetime) : Z :=
  days_from_civil (year dt) (month dt) (day dt) * 86400
  + hour dt * 3600 + minute dt * 60 + second dt.

(** An answer of the upstream API that carries [rows]. *)
Definition page (status : Z) (rows : list Candle) : Response :=
  {| status_code := status; reason := "OK"; url := PRICE_API_URL;
     body := Json {| retCode := Some 0; retMsg := Some "OK";
                     result := Some {| result_list := Some rows |} |} |}.

Definition candle : Candle :=
  ["1609459200"; "35000"; "36000"; "34000"; "35500"; "100"; "500000"].

(** A network that plays a script: one entry per request, and a connection
    error when the script has run out. *)
Definition scripted (url : string) (params : Params) (timeout : option Z)
    (w : list HttpResult) : HttpResult * list HttpResult :=
  match w with
  | [] => (GetRaises ConnectionError "Connection refused", [])
  | r :: w' => (r, w')
  end.

(** A network that answers every request with as many candles as the
    request asks for. *)
Definition exact (url : string) (params : Params) (timeout : option Z)
    (w : unit) : HttpResult * unit :=
  (GetReturns (page 200 (replicate (Z.to_nat (p_limit params)) candle)), tt).

(** A network that answers every request with one candle. *)
Definition steady (url : string) (params : Params) (timeout : option Z)
    (w : unit) : HttpResult * unit :=
  (GetReturns (page 200 [candle]), tt).

(** A file system in which every path exists and every write succeeds. *)
Definition present (path : string) (w : unit) : bool := true.

Definition mkdirs (path : string) (w : unit) : option string * unit :=
  (None, tt).

Definition store (path text : string) (w : unit) : option string * unit :=
  (None, tt).

Definition fresh {World} (w : World) : State World :=
  {| world := w; sent := []; written := []; log := []; stdout := [] |}.

Definition connector (interval start end_ : string) : BybitConnector :=
  {| category := "inverse"; symbol := "BTCUSD"; interval := interval;
     start := start; end_ := end_ |}.

End Reference.


(** ** Vocabulary of the statements *)

(** The candles of a decoded answer, as [get_prices] reads them. *)
Definition candles_of_data (response_data : ResponseData) : list Candle :=
  default [] (result_list (default {| result_list := None |}
                             (result response_data))).

(** The candles that one exchange brought. *)
Definition candles_of (r : HttpResult) : list Candle :=
  match r with
  | GetReturns response =>
      match body response with
      | Json response_data => candles_of_data response_data
      | NotJson _ => []
      end
  | GetRaises _ _ => []
  end.

(** The candles of a run of exchanges, in the order of the exchanges. *)
Definition fetched (history : list (Params * HttpResult)) : list Candle :=
  concat (map (fun x => candles_of (snd x)) history).

(** The request that the loop sends when its cursor is [batch_start]. *)
Definition request_of (self : BybitConnector)
    (limit end_timestamp seconds_per_candle batch_start : Z) : Params :=
  {| p_category := category self; p_symbol := symbol self;
     p_interval := interval self; p_start := batch_start;
     p_limit :=
       (Z.min (batch_start + limit * seconds_per_candle) end_timestamp
        - batch_start) / seconds_per_candle |}.

(** The state after one more exchange and after more log records. *)
Definition exchanged {World} (st : State World) (p : Params)
    (r : HttpResult) (w : World) : State World :=
  {| world := w; sent := sent st ++ [(p, r)]; written := written st;
     log := log st; stdout := stdout st |}.

Definition logged {World} (st : State World) (records : list LogRecord)
  : State World :=
  {| world := world st; sent := sent st; written := written st;
     log := log st ++ records; stdout := stdout st |}.

(** An answer that [raise_for_status] lets through. *)
Definition passes_status (response : Response) : Prop :=
  ~ (400 <= status_code response < 600).

(** An answer to the request [p] that is a page of exactly as many candles
    as [p] asks for. *)
Definition exact_answer (p : Params) (r : HttpResult) : Prop :=
  exists response response_data,
    r = GetReturns response
    /\ passes_status response
    /\ body response = Json response_data
    /\ retCode response_data = Some 0
    /\ Z.of_nat (length (candles_of_data response_data)) = p_limit p.

(** [sub] occurs in [s]. *)
Definition contains (s sub : string) : Prop :=
  exists before after, s = before +:+ sub +:+ after.

(** The same, computed: [sub in s]. *)
Fixpoint starts_with (sub s : string) : bool :=
  match sub, s with
  | EmptyString, _ => true
  | String a sub', String b s' => bool_decide (a = b) && starts_with sub' s'
  | String _ _, EmptyString => false
  end.

Fixpoint occurs (sub s : string) : bool :=
  starts_with sub s
  || match s with
     | EmptyString => false
     | String _ s' => occurs sub s'
     end.

(** The states in which the field [f] has been read and the delimiter or
    the end of the record is awaited. *)
Definition ready (self : Reader) (fs : list string) (f : string) : Prop :=
  fields self = fs
  /\ ((state self = IN_FIELD /\ field self = f)
      \/ (state self = QUOTE_IN_QUOTED_FIELD /\ field self = f)
      \/ (state self = START_FIELD /\ field self = "" /\ f = "")).

(** Two fetches that end alike: both run out of fuel, or both end with the
    same list or the same exception, after the same exchanges. *)
Definition same_fetch {World}
    (a b : option (Outcome (list Candle) * State World)) : Prop :=
  match a, b with
  | Some (o1, t1), Some (o2, t2) =>
      o1 = o2 /\ world t1 = world t2 /\ sent t1 = sent t2
  | None, None => True
  | _, _ => False
  end.

(** The smallest number of steps of length [step] that cover [distance]. *)
Definition steps (distance step : Z) : Z := (distance + step - 1) / step.

(** ** Strings *)

Lemma string_app_cons c s t : String c s +:+ t = String c (s +:+ t).
Proof. reflexivity. Qed.

Lemma string_app_nil_r s : s +:+ "" = s.
Proof. induction s as [|c s IH]; [done|]. by rewrite string_app_cons, IH. Qed.

Lemma string_app_assoc s t u : (s +:+ t) +:+ u = s +:+ t +:+ u.
Proof.
  induction s as [|c s IH]; [done|]. by rewrite !string_app_cons, IH.
Qed.

Lemma starts_with_app sub after : starts_with sub (sub +:+ after) = true.
Proof.
  induction sub as [|c sub IH]; [done|].
  rewrite string_app_cons. simpl. by rewrite bool_decide_eq_true_2, IH.
Qed.

(** The computed test finds every occurrence. *)
Lemma contains_occurs s sub : contains s sub -> occurs sub s = true.
Proof.
  intros (before & after & ->).
  induction before as [|c before IH].
  - change ("" +:+ sub +:+ after) with (sub +:+ after).
    destruct (sub +:+ after) eqn:E; simpl; rewrite <- E;
      by rewrite starts_with_app.
  - rewrite string_app_cons. simpl. rewrite IH. apply orb_true_r.
Qed.

(** ** The pagination loop *)

Section Loop.

Variable strptime : string -> string -> string + datetime.
Variable timestamp : datetime -> Z.
Variable World : Type.
Variable requests_get :
  string -> Params -> option Z -> World -> HttpResult * World.

Implicit Types (self : BybitConnector) (st : State World) (p : Params).
Implicit Types (all_candles : list Candle) (r : HttpResult).

Lemma logged_nil st : logged st [] = st.
Proof. destruct st. unfold logged. simpl. by rewrite app_nil_r. Qed.

Lemma logged_logged st l1 l2 : logged (logged st l1) l2 = logged st (l1 ++ l2).
Proof. unfold logged. simpl. by rewrite app_assoc. Qed.

Lemma steps_cover distance step :
  0 < step -> distance <= Z.of_nat (Z.to_nat (steps distance step)) * step.
Proof.
  intros Hs. unfold steps.
  pose proof (Z.div_mod (distance + step - 1) step ltac:(lia)) as Hd.
  pose proof (Z.mod_pos_bound (distance + step - 1) step Hs) as Hm.
  set (q := (distance + step - 1) / step) in *.
  assert (Z.of_nat (Z.to_nat q) = Z.max 0 q) as -> by lia. nia.
Qed.

(** *** What one pass through the body does, by the answer it gets *)

Section Body.

Variables (self : BybitConnector) (limit end_timestamp seconds_per_candle : Z).
Variables (all_candles : list Candle) (batch_start : Z) (st : State World).

Abbreviation p :=
  (request_of self limit end_timestamp seconds_per_candle batch_start).
Abbreviation body_result :=
  (get_prices_body requests_get self limit end_timestamp seconds_per_candle
     all_candles batch_start st).
Abbreviation batch_end :=
  (Z.min (batch_start + limit * seconds_per_candle) end_timestamp).

Ltac run_body H :=
  unfold get_prices_body, try_except, bind, get;
  unfold request_of in H; rewrite H; simpl.

Lemma body_get_raises kind msg w :
  requests_get PRICE_API_URL p (Some 10) (world st)
  = (GetRaises kind msg, w) ->
  body_result
  = (Raise (RequestException kind msg),
     logged (exchanged st p (GetRaises kind msg) w)
       [(ERROR, "HTTP request failed: " +:+ msg)]).
Proof. intros H. run_body H. reflexivity. Qed.

Lemma body_status_raises response w :
  requests_get PRICE_API_URL p (Some 10) (world st)
  = (GetReturns response, w) ->
  400 <= status_code response < 600 ->
  exists msg,
    body_result
    = (Raise (RequestException HTTPError msg),
       logged (exchanged st p (GetReturns response) w)
         [(ERROR, "HTTP request failed: " +:+ msg)]).
Proof.
  intros H Hs. run_body H. unfold raise_for_status.
  repeat case_decide; try lia; eexists; reflexivity.
Qed.

Lemma raise_for_status_passes response (st' : State World) :
  passes_status response -> raise_for_status response st' = (Return tt, st').
Proof.
  unfold passes_status, raise_for_status. intros Hs.
  repeat case_decide; try lia; reflexivity.
Qed.

Lemma body_json_raises response w e :
  requests_get PRICE_API_URL p (Some 10) (world st)
  = (GetReturns response, w) ->
  passes_status response ->
  body response = NotJson e ->
  body_result
  = match e with
    | RequestsJSONDecodeError msg =>
        (Raise (JSONDecodeError msg),
         logged (exchanged st p (GetReturns response) w)
           [(ERROR, "HTTP request failed: " +:+ msg)])
    | PlainJSONDecodeError msg =>
        (Raise (ValueError msg None),
         logged (exchanged st p (GetReturns response) w)
           [(CRITICAL, "Unexpected error during API request: " +:+ msg)])
    end.
Proof.
  intros H Hs Hb. run_body H. rewrite raise_for_status_passes by done.
  unfold json. rewrite Hb. by destruct e.
Qed.

Lemma body_api_error response w response_data :
  requests_get PRICE_API_URL p (Some 10) (world st)
  = (GetReturns response, w) ->
  passes_status response ->
  body response = Json response_data ->
  retCode response_data <> Some 0 ->
  let error_message :=
    default "Unknown error from API." (retMsg response_data) in
  body_result
  = (Raise (ValueError ("API error: " +:+ error_message) None),
     logged (exchanged st p (GetReturns response) w)
       [(ERROR, "API returned an error: " +:+ error_message);
        (CRITICAL,
         "Unexpected error during API request: " +:+ "API error: "
           +:+ error_message)]).
Proof.
  intros H Hs Hb Hc. cbv zeta. run_body H.
  rewrite raise_for_status_passes by done.
  unfold json. rewrite Hb. simpl. case_decide; [|done].
  unfold logged, exchanged. simpl. by rewrite <- app_assoc.
Qed.

Lemma body_empty_page response w response_data :
  requests_get PRICE_API_URL p (Some 10) (world st)
  = (GetReturns response, w) ->
  passes_status response ->
  body response = Json response_data ->
  retCode response_data = Some 0 ->
  candles_of_data response_data = [] ->
  body_result
  = (Return (Break all_candles),
     logged (exchanged st p (GetReturns response) w)
       [(INFO, "No more data available for the given range.")]).
Proof.
  intros H Hs Hb Hc He. run_body H. rewrite raise_for_status_passes by done.
  unfold json. rewrite Hb. simpl. case_decide; [done|].
  unfold candles_of_data in He. rewrite He. reflexivity.
Qed.

Lemma body_page response w response_data :
  requests_get PRICE_API_URL p (Some 10) (world st)
  = (GetReturns response, w) ->
  passes_status response ->
  body response = Json response_data ->
  retCode response_data = Some 0 ->
  candles_of_data response_data <> [] ->
  body_result
  = (Return (Continue (all_candles ++ candles_of_data response_data)
               batch_end),
     exchanged st p (GetReturns response) w).
Proof.
  intros H Hs Hb Hc He. run_body H. rewrite raise_for_status_passes by done.
  unfold json. rewrite Hb. simpl. case_decide; [done|].
  unfold candles_of_data in *.
  destruct (default [] _) eqn:E; [done|]. reflexivity.
Qed.

(** Whatever the answer, the body sends exactly one request, the one of
    the cursor, and touches nothing but the network and the log. *)
Lemma body_one_request :
  exists r,
    sent (snd body_result) = sent st ++ [(p, r)]
    /\ fst (requests_get PRICE_API_URL p (Some 10) (world st)) = r
    /\ written (snd body_result) = written st.
Proof.
  destruct (requests_get PRICE_API_URL p (Some 10) (world st))
    as [r w] eqn:H.
  exists r. destruct r as [kind msg|response].
  - rewrite (body_get_raises _ _ _ H). done.
  - destruct (decide (400 <= status_code response < 600)) as [Hs|Hs].
    { destruct (body_status_raises _ _ H Hs) as [msg ->]. done. }
    destruct (body response) as [e|d] eqn:Hb.
    { rewrite (body_json_raises _ _ _ H Hs Hb). by destruct e. }
    destruct (decide (retCode d = Some 0)) as [Hc|Hc].
    + destruct (decide (candles_of_data d = [])) as [He|He].
      * rewrite (body_empty_page _ _ _ H Hs Hb Hc He). done.
      * rewrite (body_page _ _ _ H Hs Hb Hc He). done.
    + pose proof (body_api_error _ _ _ H Hs Hb Hc) as E. simpl in E.
      rewrite E. done.
Qed.

(** When the body reaches its bottom, it got a page of candles that it
    appended, and it moved the cursor to the end of the batch. *)
Lemma body_continue all_candles' batch_start' st' :
  body_result = (Return (Continue all_candles' batch_start'), st') ->
  exists r w,
    requests_get PRICE_API_URL p (Some 10) (world st) = (r, w)
    /\ candles_of r <> []
    /\ all_candles' = all_candles ++ candles_of r
    /\ batch_start' = batch_end
    /\ st' = exchanged st p r w.
Proof.
  destruct (requests_get PRICE_API_URL p (Some 10) (world st))
    as [r w] eqn:H.
  intros E. exists r, w. destruct r as [kind msg|response].
  - rewrite (body_get_raises _ _ _ H) in E. done.
  - destruct (decide (400 <= status_code response < 600)) as [Hs|Hs].
    { destruct (body_status_raises _ _ H Hs) as [msg E']. congruence. }
    destruct (body response) as [e|d] eqn:Hb.
    { rewrite (body_json_raises _ _ _ H Hs Hb) in E. by destruct e. }
    destruct (decide (retCode d = Some 0)) as [Hc|Hc].
    + destruct (decide (candles_of_data d = [])) as [He|He].
      * rewrite (body_empty_page _ _ _ H Hs Hb Hc He) in E. done.
      * rewrite (body_page _ _ _ H Hs Hb Hc He) in E.
        simpl. rewrite Hb. by simplify_eq.
    + pose proof (body_api_error _ _ _ H Hs Hb Hc) as E'. simpl in E'.
      congruence.
Qed.

End Body.

(** *** The loop *)

Section While.

Variables (self : BybitConnector) (limit end_timestamp seconds_per_candle : Z).

Abbreviation while fuel :=
  (get_prices_while requests_get fuel self limit end_timestamp
     seconds_per_candle).
Abbreviation body :=
  (get_prices_body requests_get self limit end_timestamp seconds_per_candle).
Abbreviation after n :=
  (passes requests_get n self limit end_timestamp seconds_per_candle).
Abbreviation request :=
  (request_of self limit end_timestamp seconds_per_candle).

Lemma while_done fuel all_candles batch_start st :
  end_timestamp <= batch_start ->
  while fuel all_candles batch_start st = Some (Return all_candles, st).
Proof. intros H. destruct fuel; simpl; case_decide; done || lia. Qed.

Lemma while_step fuel all_candles batch_start st :
  batch_start < end_timestamp ->
  while (S fuel) all_candles batch_start st
  = match body all_candles batch_start st with
    | (Return (Continue all_candles' batch_start'), st') =>
        while fuel all_candles' batch_start' st'
    | (Return (Break all_candles'), st') => Some (Return all_candles', st')
    | (Raise e, st') => Some (Raise e, st')
    end.
Proof. intros H. simpl. case_decide; done || lia. Qed.

(** More fuel does not change the result of a loop that ended. *)
Lemma while_more_fuel fuel fuel' all_candles batch_start st result :
  while fuel all_candles batch_start st = Some result ->
  (fuel <= fuel')%nat ->
  while fuel' all_candles batch_start st = Some result.
Proof.
  revert fuel' all_candles batch_start st.
  induction fuel as [|fuel IH]; intros fuel' all_candles batch_start st.
  - simpl. case_decide; [done|]. intros E _. rewrite while_done; [done|lia].
  - destruct (decide (batch_start < end_timestamp)) as [Hlt|Hge].
    + rewrite while_step by done. intros E Hle.
      destruct fuel' as [|fuel']; [lia|]. rewrite while_step by done.
      destruct (body all_candles batch_start st) as [[[a b|a]|e] st'];
        [|done|done].
      apply IH; [done|lia].
    + intros E _. rewrite while_done in E by lia.
      rewrite while_done; [done|lia].
Qed.

(** The loop after [n] passes that reached the bottom of the body is the
    loop started from where they led. *)
Lemma while_after n fuel all_candles batch_start st all_candles'
    batch_start' st' :
  after n all_candles batch_start st = Some (all_candles', batch_start', st') ->
  while (n + fuel) all_candles batch_start st
  = while fuel all_candles' batch_start' st'.
Proof.
  revert all_candles batch_start st.
  induction n as [|n IH]; intros all_candles batch_start st; simpl.
  - intros E. by simplify_eq.
  - case_decide; [|done].
    destruct (body all_candles batch_start st) as [[[a b|a]|e] st''];
      [|done|done].
    apply IH.
Qed.

(** What [n] full passes leave behind: [n] exchanges, each for the request
    of its cursor, their candles appended in order, nothing written. *)
Lemma after_history n all_candles batch_start st all_candles'
    batch_start' st' :
  after n all_candles batch_start st = Some (all_candles', batch_start', st') ->
  exists history,
    sent st' = sent st ++ history
    /\ length history = n
    /\ all_candles' = all_candles ++ fetched history
    /\ Forall (fun x => fst x = request (p_start (fst x))
                        /\ candles_of (snd x) <> []) history
    /\ written st' = written st /\ log st' = log st.
Proof.
  revert all_candles batch_start st.
  induction n as [|n IH]; intros all_candles batch_start st; simpl.
  - intros E. simplify_eq. exists []. rewrite !app_nil_r. done.
  - case_decide; [|done].
    destruct (body all_candles batch_start st) as [[[a b|a]|e] st''] eqn:Eb;
      [|done|done].
    apply body_continue in Eb as (r & w & Hget & Hne & -> & -> & ->).
    intros E. apply IH in E as (history & Hs & Hl & Ha & Hf & Hw & Hlog).
    exists ((request batch_start, r) :: history). simpl in *.
    rewrite Hs, <- app_assoc. repeat split; try done.
    + by rewrite Hl.
    + rewrite Ha. unfold fetched. simpl. by rewrite app_assoc.
    + by constructor.
Qed.

(** Every request of a loop that ended is the request of its cursor. *)
Lemma while_requests fuel all_candles batch_start st outcome st' :
  while fuel all_candles batch_start st = Some (outcome, st') ->
  exists history,
    sent st' = sent st ++ history
    /\ Forall (fun x => fst x = request (p_start (fst x))) history.
Proof.
  revert all_candles batch_start st.
  induction fuel as [|fuel IH]; intros all_candles batch_start st.
  - simpl. case_decide; [done|]. intros E. simplify_eq.
    exists []. by rewrite app_nil_r.
  - destruct (decide (batch_start < end_timestamp)) as [Hlt|Hge].
    2: { rewrite while_done by lia. intros E. simplify_eq.
         exists []. by rewrite app_nil_r. }
    rewrite while_step by done.
    destruct (body_one_request self limit end_timestamp
                seconds_per_candle all_candles batch_start st)
      as (r & Hs & _ & _).
    destruct (body all_candles batch_start st) as [[[a b|a]|e] st''] eqn:Eb;
      simpl in Hs; intros E.
    + apply IH in E as (history & Hs' & Hf).
      exists ((request batch_start, r) :: history).
      rewrite Hs', Hs, <- app_assoc. split; [done|]. by constructor.
    + simplify_eq. eexists. split; [done|]. by repeat constructor.
    + simplify_eq. eexists. split; [done|]. by repeat constructor.
Qed.

Hypothesis limit_positive : 1 <= limit.
Hypothesis seconds_positive : 0 < seconds_per_candle.

(** A pass that reaches the bottom of the body moves the cursor forward. *)
Lemma body_advances all_candles batch_start st all_candles' batch_start' st' :
  batch_start < end_timestamp ->
  body all_candles batch_start st
  = (Return (Continue all_candles' batch_start'), st') ->
  batch_start'
  = batch_start
    + Z.min (limit * seconds_per_candle) (end_timestamp - batch_start)
  /\ batch_start < batch_start' <= end_timestamp.
Proof using limit_positive seconds_positive.
  intros Hlt Eb.
  apply body_continue in Eb as (r & w & _ & _ & _ & -> & _). nia.
Qed.

(** With fuel for the distance left, the loop ends, and it sends at most
    one request per unit of fuel. *)
Lemma while_terminates fuel all_candles batch_start st :
  end_timestamp - batch_start
  <= Z.of_nat fuel * (limit * seconds_per_candle) ->
  exists outcome st',
    while fuel all_candles batch_start st = Some (outcome, st')
    /\ exists history,
         sent st' = sent st ++ history /\ (length history <= fuel)%nat.
Proof using limit_positive seconds_positive.
  revert all_candles batch_start st.
  induction fuel as [|fuel IH]; intros all_candles batch_start st Hd.
  - rewrite while_done by lia. do 2 eexists. split; [done|].
    exists []. by rewrite app_nil_r.
  - destruct (decide (batch_start < end_timestamp)) as [Hlt|Hge].
    2: { rewrite while_done by lia. do 2 eexists. split; [done|].
         exists []. rewrite app_nil_r. split; [done|simpl; lia]. }
    rewrite while_step by done.
    destruct (body_one_request self limit end_timestamp
                seconds_per_candle all_candles batch_start st)
      as (r & Hs & _ & _).
    destruct (body all_candles batch_start st) as [[[a b|a]|e] st''] eqn:Eb;
      simpl in Hs.
    + apply body_advances in Eb as [Eb Hb]; [|done].
      destruct (IH a b st'') as (o & st' & E & history & Hs' & Hl); [nia|].
      exists o, st'. split; [done|].
      exists ((request batch_start, r) :: history).
      rewrite Hs', Hs, <- app_assoc. split; [done|simpl; lia].
    + do 2 eexists. split; [done|]. eexists. split; [done|simpl; lia].
    + do 2 eexists. split; [done|]. eexists. split; [done|simpl; lia].
Qed.

(** When every page is exactly as long as asked, the loop returns as many
    candles as there are whole intervals left before the end. *)
Lemma while_exact fuel all_candles batch_start st :
  (forall p w, 0 <= p_limit p ->
     exact_answer p (fst (requests_get PRICE_API_URL p (Some 10) w))) ->
  batch_start <= end_timestamp ->
  end_timestamp - batch_start
  <= Z.of_nat fuel * (limit * seconds_per_candle) ->
  exists rows st',
    while fuel all_candles batch_start st
    = Some (Return (all_candles ++ rows), st')
    /\ Z.of_nat (length rows)
       = (end_timestamp - batch_start) / seconds_per_candle.
Proof using limit_positive seconds_positive.
  intros Hexact. revert all_candles batch_start st.
  induction fuel as [|fuel IH]; intros all_candles batch_start st Hle Hd.
  - rewrite while_done by lia. exists [], st. rewrite app_nil_r.
    split; [done|]. replace (end_timestamp - batch_start) with 0 by lia.
    done.
  - destruct (decide (batch_start < end_timestamp)) as [Hlt|Hge].
    2: { rewrite while_done by lia. exists [], st. rewrite app_nil_r.
         split; [done|]. replace (end_timestamp - batch_start) with 0 by lia.
         done. }
    rewrite while_step by done.
    set (batch_end :=
           Z.min (batch_start + limit * seconds_per_candle) end_timestamp).
    assert (0 <= p_limit (request batch_start)) as Hpos.
    { simpl. apply Z.div_pos; lia. }
    destruct (requests_get PRICE_API_URL (request batch_start) (Some 10)
                (world st)) as [r w] eqn:Hget.
    pose proof (Hexact _ (world st) Hpos) as Hr. rewrite Hget in Hr.
    simpl in Hr. destruct Hr as (response & d & -> & Hs & Hb & Hc & Hlen). simpl in Hlen.
    fold batch_end in Hlen.
    destruct (decide (candles_of_data d = [])) as [He|He].
    + rewrite (body_empty_page _ _ _ _ _ _ _ _ _ _ Hget Hs Hb Hc He).
      exists []. eexists. rewrite app_nil_r. split; [done|].
      rewrite He in Hlen. simpl in Hlen. symmetry in Hlen.
      apply Z.div_small_iff in Hlen as [Hlen|Hlen]; [|lia|lia].
      symmetry. apply Z.div_small.
      assert (batch_end = end_timestamp) by nia. lia.
    + rewrite (body_page _ _ _ _ _ _ _ _ _ _ Hget Hs Hb Hc He).
      fold batch_end.
      destruct (IH (all_candles ++ candles_of_data d) batch_end
                  (exchanged st (request batch_start) (GetReturns response) w))
        as (rows & st' & E & Hrows); [lia|nia|].
      exists (candles_of_data d ++ rows), st'. rewrite app_assoc.
      split; [done|]. rewrite length_app, Nat2Z.inj_add, Hlen, Hrows.
      destruct (decide (batch_start + limit * seconds_per_candle
                        <= end_timestamp)) as [Hfull|Hlast].
      * replace batch_end with (batch_start + limit * seconds_per_candle)
          by lia.
        replace (batch_start + limit * seconds_per_candle - batch_start)
          with (limit * seconds_per_candle) by lia.
        replace (end_timestamp - (batch_start + limit * seconds_per_candle))
          with (end_timestamp - batch_start + - limit * seconds_per_candle)
          by lia.
        rewrite Z.div_mul, Z.div_add by lia. lia.
      * replace batch_end with end_timestamp by lia.
        rewrite Z.sub_diag. rewrite Z.div_0_l by lia. lia.
Qed.

End While.

(** *** [get_prices] around the loop *)

Lemma interval_to_seconds_run interval st :
  _interval_to_seconds interval st
  = (Return (default 86400 (conversion !! interval)),
     logged st
       (if decide (conversion !! interval = None)
        then [(WARNING,
               "Unknown interval '" +:+ interval
                 +:+ "'. Defaulting to 'D' (86400 seconds).")]
        else [])).
Proof.
  unfold _interval_to_seconds, bind. case_decide; simpl.
  - reflexivity.
  - by rewrite logged_nil.
Qed.

Lemma conversion_positive interval : 0 < default 86400 (conversion !! interval).
Proof.
  destruct (conversion !! interval) as [seconds|] eqn:E; simpl; [|lia].
  apply elem_of_list_to_map_2 in E.
  repeat (apply elem_of_cons in E as [E|E]; [simplify_eq; lia|]).
  by apply elem_of_nil in E.
Qed.

Lemma interval_to_seconds_positive interval st seconds st' :
  _interval_to_seconds interval st = (Return seconds, st') -> 0 < seconds.
Proof.
  rewrite interval_to_seconds_run. intros E. simplify_eq.
  apply conversion_positive.
Qed.

Lemma interval_to_seconds_state interval st seconds st' :
  _interval_to_seconds interval st = (Return seconds, st') ->
  world st' = world st /\ sent st' = sent st /\ written st' = written st.
Proof. rewrite interval_to_seconds_run. intros E. by simplify_eq. Qed.

Lemma to_unix_timestamp_valid date_str dt st :
  strptime date_str DATE_FORMAT = inr dt ->
  _to_unix_timestamp strptime timestamp date_str st
  = (Return (timestamp dt), st).
Proof. intros E. unfold _to_unix_timestamp. by rewrite E. Qed.

Lemma to_unix_timestamp_invalid date_str msg st :
  strptime date_str DATE_FORMAT = inl msg ->
  _to_unix_timestamp strptime timestamp date_str st
  = (Raise (ValueError "Invalid date format. Use 'YYYY-MM-DD HH:MM:SS'."
              (Some (ValueError msg None))),
     logged st
       [(ERROR,
         "Invalid date format: " +:+ date_str
           +:+ ". Expected 'YYYY-MM-DD HH:MM:SS'.")]).
Proof. intros E. unfold _to_unix_timestamp. by rewrite E. Qed.

(** [get_prices] on dates that parse: the loop, then the closing record. *)
Lemma get_prices_valid self limit fuel st ds de seconds st1 :
  strptime (start self) DATE_FORMAT = inr ds ->
  strptime (end_ self) DATE_FORMAT = inr de ->
  _interval_to_seconds (interval self) st = (Return seconds, st1) ->
  get_prices strptime timestamp requests_get self limit fuel st
  = match get_prices_while requests_get fuel self limit (timestamp de)
            seconds [] (timestamp ds) st1 with
    | None => None
    | Some (Raise e, st2) => Some (Raise e, st2)
    | Some (Return all_candles, st2) =>
        Some (Return all_candles,
              logged st2
                [(INFO,
                  "Fetched " +:+ pretty (length all_candles)
                    +:+ " candlesticks.")])
    end.
Proof.
  intros Es Ee Ei. unfold get_prices, bind.
  rewrite (to_unix_timestamp_valid _ _ _ Es).
  rewrite (to_unix_timestamp_valid _ _ _ Ee). rewrite Ei. simpl.
  destruct (get_prices_while _ _ _ _ _ _ _ _ _) as [[[c|e] st2]|]; done.
Qed.

(** [get_prices] on a date that does not parse. *)
Lemma get_prices_invalid_start self limit fuel st msg :
  strptime (start self) DATE_FORMAT = inl msg ->
  get_prices strptime timestamp requests_get self limit fuel st
  = Some (Raise (ValueError "Invalid date format. Use 'YYYY-MM-DD HH:MM:SS'."
                   (Some (ValueError msg None))),
          logged st
            [(ERROR,
              "Invalid date format: " +:+ start self
                +:+ ". Expected 'YYYY-MM-DD HH:MM:SS'.")]).
Proof.
  intros Es. unfold get_prices, bind.
  by rewrite (to_unix_timestamp_invalid _ _ _ Es).
Qed.

Lemma get_prices_invalid_end self limit fuel st ds msg :
  strptime (start self) DATE_FORMAT = inr ds ->
  strptime (end_ self) DATE_FORMAT = inl msg ->
  get_prices strptime timestamp requests_get self limit fuel st
  = Some (Raise (ValueError "Invalid date format. Use 'YYYY-MM-DD HH:MM:SS'."
                   (Some (ValueError msg None))),
          logged st
            [(ERROR,
              "Invalid date format: " +:+ end_ self
                +:+ ". Expected 'YYYY-MM-DD HH:MM:SS'.")]).
Proof.
  intros Es Ee. unfold get_prices, bind.
  rewrite (to_unix_timestamp_valid _ _ _ Es).
  by rewrite (to_unix_timestamp_invalid _ _ _ Ee).
Qed.

(** *** The interval table *)

(** C3: [_interval_to_seconds] returns the value of the fixed table for
    each of its thirteen codes and leaves the state alone; for every other
    code it returns 86400 and hands one warning to the logger; it never
    raises. *)
Theorem interval_to_seconds_table (interval : string) (st : State World) :
  let table :=
    [("1", 60); ("3", 180); ("5", 300); ("15", 900); ("30", 1800);
     ("60", 3600); ("120", 7200); ("240", 14400); ("360", 21600);
     ("720", 43200); ("D", 86400); ("W", 604800); ("M", 2592000)] in
  (forall seconds : Z,
      In (interval, seconds) table ->
      _interval_to_seconds interval st = (Return seconds, st))
  /\ (~ In interval (map fst table) ->
      _interval_to_seconds interval st
      = (Return 86400,
         logged st
           [(WARNING,
             "Unknown interval '" +:+ interval
               +:+ "'. Defaulting to 'D' (86400 seconds).")]))
  /\ (exists seconds st',
        _interval_to_seconds interval st = (Return seconds, st')).
Proof.
  intros table. split; [|split].
  - intros seconds Hin. rewrite interval_to_seconds_run.
    assert (conversion !! interval = Some seconds) as E.
    { simpl in Hin.
      repeat (destruct Hin as [Hin|Hin];
              [injection Hin as <- <-; reflexivity|]).
      done. }
    rewrite E. simpl. by rewrite logged_nil.
  - intros Hout. rewrite interval_to_seconds_run.
    assert (conversion !! interval = None) as E.
    { apply not_elem_of_list_to_map_1. by rewrite list_elem_of_In. }
    rewrite E. reflexivity.
  - rewrite interval_to_seconds_run. eauto.
Qed.

(** *** The result of a fetch *)

(** C1: for a start before the end and a page limit of at least 1, when
    every request is answered by a page of exactly as many candles as it
    asks for, [get_prices] returns, for every fuel that covers the window,
    a list of [(end - start) div seconds_per_candle] candles, where
    [seconds_per_candle] is what [_interval_to_seconds] returns; and every
    request, the last and partial one too, asks for the truncated count
    [(batch_end - cursor) div seconds_per_candle]. *)
Theorem get_prices_row_count self limit st ds de seconds st1 :
  strptime (start self) DATE_FORMAT = inr ds ->
  strptime (end_ self) DATE_FORMAT = inr de ->
  _interval_to_seconds (interval self) st = (Return seconds, st1) ->
  timestamp ds < timestamp de ->
  1 <= limit ->
  (forall p w, 0 <= p_limit p ->
     exact_answer p (fst (requests_get PRICE_API_URL p (Some 10) w))) ->
  exists rows st',
    (forall fuel,
        steps (timestamp de - timestamp ds) (limit * seconds)
        <= Z.of_nat fuel ->
        get_prices strptime timestamp requests_get self limit fuel st
        = Some (Return rows, st'))
    /\ Z.of_nat (length rows) = (timestamp de - timestamp ds) / seconds
    /\ exists history,
         sent st' = sent st ++ history
         /\ Forall
              (fun x =>
                 let cursor := p_start (fst x) in
                 let batch_end :=
                   Z.min (cursor + limit * seconds) (timestamp de) in
                 p_limit (fst x) = (batch_end - cursor) / seconds)
              history.
Proof.
  intros Es Ee Ei Hlt Hlimit Hexact.
  pose proof (interval_to_seconds_positive _ _ _ _ Ei) as Hsec.
  pose proof (steps_cover (timestamp de - timestamp ds) (limit * seconds)
                ltac:(nia)) as Hcover.
  destruct (while_exact self limit (timestamp de) seconds Hlimit Hsec
              (Z.to_nat (steps (timestamp de - timestamp ds)
                           (limit * seconds)))
              [] (timestamp ds) st1 Hexact ltac:(lia) Hcover)
    as (rows & st2 & E & Hlen).
  simpl in E. exists rows. eexists. split; [|split; [done|]].
  - intros fuel Hfuel.
    rewrite (get_prices_valid _ _ _ _ _ _ _ _ Es Ee Ei).
    rewrite (while_more_fuel _ _ _ _ _ _ _ _ _ _ E) by lia. reflexivity.
  - apply while_requests in E as (history & Hs & Hf).
    apply interval_to_seconds_state in Ei as (_ & Hs1 & _).
    exists history. simpl. rewrite Hs, Hs1. split; [done|].
    eapply Forall_impl; [exact Hf|]. intros [p r] Hp. simpl in *.
    rewrite Hp at 1. reflexivity.
Qed.

(** C2: when the start is the end or comes after it, [get_prices] returns
    the empty list for every page limit and every fuel, raises nothing and
    sends no request. *)
Theorem get_prices_empty_window self limit fuel st ds de :
  strptime (start self) DATE_FORMAT = inr ds ->
  strptime (end_ self) DATE_FORMAT = inr de ->
  timestamp de <= timestamp ds ->
  exists st',
    get_prices strptime timestamp requests_get self limit fuel st
    = Some (Return [], st')
    /\ sent st' = sent st
    /\ world st' = world st.
Proof.
  intros Es Ee Hle.
  destruct (_interval_to_seconds (interval self) st) as [o st1] eqn:Ei.
  rewrite interval_to_seconds_run in Ei. simplify_eq.
  rewrite (get_prices_valid _ _ _ _ _ _ _ _ Es Ee
             (interval_to_seconds_run _ _)).
  rewrite while_done by lia. eexists. split; [done|]. done.
Qed.

(** C4: when the page that follows [n] pages of candles has an empty row
    list, [get_prices] stops there although the cursor is still before the
    end: for every fuel above [n] it returns, without raising, the candles
    of the [n] earlier pages in their order, and the empty page is the
    last request it sent. *)
Theorem get_prices_empty_page self limit fuel st ds de seconds st1 n
    all_candles batch_start st2 response w response_data :
  strptime (start self) DATE_FORMAT = inr ds ->
  strptime (end_ self) DATE_FORMAT = inr de ->
  _interval_to_seconds (interval self) st = (Return seconds, st1) ->
  passes requests_get n self limit (timestamp de) seconds [] (timestamp ds)
    st1 = Some (all_candles, batch_start, st2) ->
  batch_start < timestamp de ->
  requests_get PRICE_API_URL
    (request_of self limit (timestamp de) seconds batch_start) (Some 10)
    (world st2) = (GetReturns response, w) ->
  passes_status response ->
  body response = Json response_data ->
  retCode response_data = Some 0 ->
  candles_of_data response_data = [] ->
  exists st' history,
    get_prices strptime timestamp requests_get self limit (n + S fuel) st
    = Some (Return all_candles, st')
    /\ all_candles = fetched history
    /\ length history = n
    /\ sent st'
       = sent st ++ history
           ++ [(request_of self limit (timestamp de) seconds batch_start,
                GetReturns response)].
Proof.
  intros Es Ee Ei Ep Hlt Hget Hs Hb Hc He.
  rewrite (get_prices_valid _ _ _ _ _ _ _ _ Es Ee Ei).
  rewrite (while_after _ _ _ _ _ _ _ _ _ _ _ _ Ep).
  rewrite while_step by done.
  rewrite (body_empty_page _ _ _ _ _ _ _ _ _ _ Hget Hs Hb Hc He).
  apply after_history in Ep as (history & Hsent & Hlen & Ha & _).
  apply interval_to_seconds_state in Ei as (_ & Hs1 & _).
  eexists. exists history. split; [done|]. simpl.
  rewrite Hsent, Hs1, <- app_assoc. done.
Qed.

(** C5: when the page that follows [n] pages of candles was transported
    and its [retCode] is not 0, [get_prices] raises, for every fuel above
    [n], the [ValueError] whose message is [API error: ] followed by the
    [retMsg] of that answer, so the message contains the [retMsg]; no list
    of candles is returned, whatever the earlier pages brought. *)
Theorem get_prices_api_error self limit fuel st ds de seconds st1 n
    all_candles batch_start st2 response w response_data :
  strptime (start self) DATE_FORMAT = inr ds ->
  strptime (end_ self) DATE_FORMAT = inr de ->
  _interval_to_seconds (interval self) st = (Return seconds, st1) ->
  passes requests_get n self limit (timestamp de) seconds [] (timestamp ds)
    st1 = Some (all_candles, batch_start, st2) ->
  batch_start < timestamp de ->
  requests_get PRICE_API_URL
    (request_of self limit (timestamp de) seconds batch_start) (Some 10)
    (world st2) = (GetReturns response, w) ->
  passes_status response ->
  body response = Json response_data ->
  retCode response_data <> Some 0 ->
  exists e st',
    get_prices strptime timestamp requests_get self limit (n + S fuel) st
    = Some (Raise e, st')
    /\ e = ValueError
             ("API error: "
                +:+ default "Unknown error from API." (retMsg response_data))
             None
    /\ (forall msg, retMsg response_data = Some msg -> contains (str e) msg)
    /\ (forall rows st'',
           get_prices strptime timestamp requests_get self limit
             (n + S fuel) st <> Some (Return rows, st'')).
Proof.
  intros Es Ee Ei Ep Hlt Hget Hs Hb Hc.
  rewrite (get_prices_valid _ _ _ _ _ _ _ _ Es Ee Ei).
  rewrite (while_after _ _ _ _ _ _ _ _ _ _ _ _ Ep).
  rewrite while_step by done.
  pose proof (body_api_error _ _ _ _ all_candles _ _ _ _ _ Hget Hs Hb Hc)
    as Eb.
  simpl in Eb. rewrite Eb. do 2 eexists. split; [done|].
  split; [done|]. split; [|done].
  intros msg Hm. rewrite Hm. simpl. exists "API error: ", "".
  by rewrite string_app_nil_r.
Qed.

(** C6, as the code has it: when, after [n] pages of candles,
    [requests.get] raises (connection error, time-out) or returns an answer
    whose status is between 400 and 599, [get_prices] raises, for every
    fuel above [n], a [RequestException] that is no [ValueError], the class
    of an API error, and that is the exception of [requests.get] itself
    when that one raised, the [HTTPError] of [raise_for_status] otherwise;
    the failed request is the last one sent, so it is not tried again, and
    no list of candles is returned. *)
Theorem get_prices_transport_failure self limit fuel st ds de seconds st1
    n all_candles batch_start st2 r w :
  strptime (start self) DATE_FORMAT = inr ds ->
  strptime (end_ self) DATE_FORMAT = inr de ->
  _interval_to_seconds (interval self) st = (Return seconds, st1) ->
  passes requests_get n self limit (timestamp de) seconds [] (timestamp ds)
    st1 = Some (all_candles, batch_start, st2) ->
  batch_start < timestamp de ->
  requests_get PRICE_API_URL
    (request_of self limit (timestamp de) seconds batch_start) (Some 10)
    (world st2) = (r, w) ->
  ((exists kind msg, r = GetRaises kind msg)
   \/ (exists response,
         r = GetReturns response /\ 400 <= status_code response < 600)) ->
  exists kind msg st',
    get_prices strptime timestamp requests_get self limit (n + S fuel) st
    = Some (Raise (RequestException kind msg), st')
    /\ (forall kind' msg', r = GetRaises kind' msg' ->
          kind = kind' /\ msg = msg')
    /\ (forall response, r = GetReturns response -> kind = HTTPError)
    /\ isinstance_RequestException (RequestException kind msg) = true
    /\ isinstance_ValueError (RequestException kind msg) = false
    /\ sent st'
       = sent st2
           ++ [(request_of self limit (timestamp de) seconds batch_start, r)]
    /\ (forall rows st'',
           get_prices strptime timestamp requests_get self limit
             (n + S fuel) st <> Some (Return rows, st'')).
Proof.
  intros Es Ee Ei Ep Hlt Hget Hr.
  rewrite (get_prices_valid _ _ _ _ _ _ _ _ Es Ee Ei).
  rewrite (while_after _ _ _ _ _ _ _ _ _ _ _ _ Ep).
  rewrite while_step by done.
  destruct Hr as [(kind & msg & ->)|(response & -> & Hstatus)].
  - rewrite (body_get_raises _ _ _ _ _ _ _ _ _ _ Hget).
    exists kind, msg. eexists. split; [done|].
    repeat split; try done; intros; by simplify_eq.
  - destruct (body_status_raises self limit (timestamp de) seconds
                all_candles batch_start st2 _ _ Hget Hstatus) as [msg ->].
    exists HTTPError, msg. eexists. split; [done|].
    repeat split; try done.
Qed.

(** C7, as the code has it: constructing the connector never fails and
    parses nothing, whatever the five strings are it returns the connector
    that stores them as they are; when the start or the end does not
    parse, it is [get_prices], called later, that raises, for every fuel
    and before it sends a request. *)
Theorem init_never_fails category symbol interval start end_ limit fuel st :
  let self :=
    {| category := category; symbol := symbol; interval := interval;
       start := start; end_ := end_ |} in
  __init__ category symbol interval start end_ = Return self
  /\ ((exists msg, strptime start DATE_FORMAT = inl msg)
      \/ (exists msg, strptime end_ DATE_FORMAT = inl msg) ->
      exists e st',
        get_prices strptime timestamp requests_get self limit fuel st
        = Some (Raise e, st')
        /\ sent st' = sent st).
Proof.
  intros self. split; [reflexivity|]. intros Hbad.
  destruct (strptime start DATE_FORMAT) as [msg|ds] eqn:Es.
  - do 2 eexists. split; [by eapply get_prices_invalid_start|done].
  - destruct Hbad as [[msg ?]|[msg Ee]]; [done|].
    do 2 eexists. split; [by eapply get_prices_invalid_end|done].
Qed.

(** C8, as the code has it: when the start does not parse, or the start
    parses and the end does not, [get_prices] raises, for every fuel, a
    [ValueError] whose message is the same for every string and whose
    cause is the error of [strptime], with the message of [strptime]; the
    offending string is in the record handed to the logger at level ERROR,
    which is the only change of the state: no request is sent. *)
Theorem get_prices_invalid_date self limit fuel st :
  let failure date_str msg :=
    Some (Raise (ValueError "Invalid date format. Use 'YYYY-MM-DD HH:MM:SS'."
                   (Some (ValueError msg None))),
          {| world := world st; sent := sent st; written := written st;
             log := log st
                      ++ [(ERROR,
                           "Invalid date format: " +:+ date_str
                             +:+ ". Expected 'YYYY-MM-DD HH:MM:SS'.")];
             stdout := stdout st |}) in
  (forall msg,
      strptime (start self) DATE_FORMAT = inl msg ->
      get_prices strptime timestamp requests_get self limit fuel st
      = failure (start self) msg)
  /\ (forall ds msg,
        strptime (start self) DATE_FORMAT = inr ds ->
        strptime (end_ self) DATE_FORMAT = inl msg ->
        get_prices strptime timestamp requests_get self limit fuel st
        = failure (end_ self) msg).
Proof.
  intros failure. split.
  - intros msg Es. by apply get_prices_invalid_start.
  - intros ds msg Es Ee. by eapply get_prices_invalid_end.
Qed.

End Loop.

(** *** Termination *)

(** With a page limit of 0 and a network that always has a candle, the
    cursor stays where it is and the loop runs for ever. *)
Lemma steady_never_advances self end_timestamp seconds_per_candle n
    all_candles batch_start (st : State unit) :
  batch_start < end_timestamp ->
  exists all_candles' st',
    passes Reference.steady n self 0 end_timestamp seconds_per_candle
      all_candles batch_start st
    = Some (all_candles', batch_start, st').
Proof.
  intros Hlt. revert all_candles st.
  induction n as [|n IH]; intros all_candles st; cbn [passes]; [by eauto|].
  case_decide; [|lia].
  erewrite body_page;
    [|reflexivity|unfold passes_status; simpl; lia|reflexivity|done|done].
  replace (Z.min (batch_start + 0 * seconds_per_candle) end_timestamp)
    with batch_start by lia.
  apply IH.
Qed.

Lemma steady_never_ends self end_timestamp seconds_per_candle fuel
    all_candles batch_start (st : State unit) :
  batch_start < end_timestamp ->
  get_prices_while Reference.steady fuel self 0 end_timestamp
    seconds_per_candle all_candles batch_start st = None.
Proof.
  intros Hlt. revert all_candles st.
  induction fuel as [|fuel IH]; intros all_candles st.
  - simpl. case_decide; [done|lia].
  - rewrite while_step by done.
    erewrite body_page;
      [|reflexivity|unfold passes_status; simpl; lia|reflexivity|done|done].
    replace (Z.min (batch_start + 0 * seconds_per_candle) end_timestamp)
      with batch_start by lia.
    apply IH.
Qed.

(** C10: for a page limit of at least 1 the loop of [get_prices] ends.
    Each pass that does not leave the loop moves the cursor forward by
    [min (limit * seconds_per_candle) (end - cursor)], which is positive;
    so with fuel for [steps (end - start) (limit * seconds_per_candle)]
    passes, the rounded-up quotient, [get_prices] gives a result, and it
    has sent at most that many requests (none when the quotient is
    negative).  With a page limit of 0 this fails: on a window of one day
    and a network that always has a candle, the cursor never moves and no
    fuel is enough. *)
Theorem get_prices_terminates
    (strptime : string -> string -> string + datetime)
    (timestamp : datetime -> Z) (World : Type)
    (requests_get :
       string -> Params -> option Z -> World -> HttpResult * World)
    (self : BybitConnector) (limit : Z) (st : State World)
    (ds de : datetime) (seconds : Z) (st1 : State World) :
  strptime (start self) DATE_FORMAT = inr ds ->
  strptime (end_ self) DATE_FORMAT = inr de ->
  _interval_to_seconds (interval self) st = (Return seconds, st1) ->
  1 <= limit ->
  let bound := steps (timestamp de - timestamp ds) (limit * seconds) in
  (forall all_candles batch_start stA all_candles' batch_start' stB,
      batch_start < timestamp de ->
      get_prices_body requests_get self limit (timestamp de) seconds
        all_candles batch_start stA
      = (Return (Continue all_candles' batch_start'), stB) ->
      batch_start'
      = batch_start + Z.min (limit * seconds) (timestamp de - batch_start)
      /\ 0 < Z.min (limit * seconds) (timestamp de - batch_start))
  /\ (forall fuel,
        bound <= Z.of_nat fuel ->
        exists outcome st' history,
          get_prices strptime timestamp requests_get self limit fuel st
          = Some (outcome, st')
          /\ sent st' = sent st ++ history
          /\ Z.of_nat (length history) <= Z.max 0 bound)
  /\ (let self0 :=
        Reference.connector "D" "2024-12-01 00:00:00" "2024-12-02 00:00:00" in
      (forall fuel,
          get_prices Reference.strptime Reference.timestamp Reference.steady
            self0 0 fuel (Reference.fresh tt) = None)
      /\ (forall n,
            exists all_candles st',
              passes Reference.steady n self0 0 1733097600 86400 []
                1733011200 (Reference.fresh tt)
              = Some (all_candles, 1733011200, st'))).
Proof.
  intros Es Ee Ei Hlimit bound.
  assert (0 < seconds) as Hsec
    by (eapply interval_to_seconds_positive; exact Ei).
  split; [|split].
  - intros all_candles batch_start stA all_candles' batch_start' stB Hlt Eb.
    eapply body_advances in Eb; [|done..]. lia.
  - intros fuel Hfuel.
    pose proof (steps_cover (timestamp de - timestamp ds) (limit * seconds)
                  ltac:(nia)) as Hcover.
    destruct (while_terminates _ requests_get self limit (timestamp de)
                seconds Hlimit Hsec (Z.to_nat bound) [] (timestamp ds) st1
                Hcover)
      as (outcome & st2 & E & history & Hs & Hlen).
    eapply while_more_fuel with (fuel' := fuel) in E; [|lia].
    erewrite get_prices_valid; [|exact Es|exact Ee|exact Ei]. rewrite E.
    eapply interval_to_seconds_state in Ei as (_ & Hs1 & _).
    destruct outcome as [all_candles|e]; do 2 eexists; exists history;
      (split; [done|]); simpl; rewrite Hs, Hs1; (split; [done|lia]).
  - split.
    + intros fuel.
      erewrite get_prices_valid;
        [|reflexivity|reflexivity|apply interval_to_seconds_run].
      rewrite steady_never_ends; [done|]. vm_compute. done.
    + intros n. apply steady_never_advances. lia.
Qed.

(** ** The CSV file *)

Section Csv.

Local Arguments reader : simpl never.
Local Arguments parse_process_char : simpl never.

Lemma special_false c :
  special c = false -> c <> COMMA /\ c <> QUOTE /\ c <> CR /\ c <> LF.
Proof.
  unfold special. rewrite !orb_false_iff, !bool_decide_eq_false. tauto.
Qed.

Lemma line_continues c c' rest :
  c <> LF -> c <> CR -> line_ends c (String c' rest) = false.
Proof.
  intros H1 H2. simpl.
  rewrite (bool_decide_eq_false_2 _ H1), (bool_decide_eq_false_2 _ H2). done.
Qed.

(** One character inside a line. *)
Lemma reader_step c rest self self' :
  parse_process_char self (Some c) = Some self' ->
  line_ends c rest = false ->
  reader (String c rest) self = reader rest self'.
Proof. intros E1 E2. unfold reader at 1; fold reader. by rewrite E1, E2. Qed.

(** The last character of a line that ends a record. *)
Lemma reader_line c rest self self1 self2 :
  parse_process_char self (Some c) = Some self1 ->
  line_ends c rest = true ->
  parse_process_char self1 None = Some self2 ->
  state self2 = START_RECORD ->
  reader (String c rest) self
  = cons (fields self2) <$> reader rest parse_reset.
Proof.
  intros E1 E2 E3 E4. unfold reader at 1; fold reader.
  rewrite E1, E2, E3, bool_decide_eq_true_2 by done.
  by destruct (reader rest parse_reset).
Qed.

(** A character that is not special, inside a field without quotes. *)
Lemma process_plain c st fs b :
  special c = false ->
  st = START_FIELD \/ st = IN_FIELD ->
  parse_process_char {| state := st; fields := fs; field := b |} (Some c)
  = Some {| state := IN_FIELD; fields := fs; field := b +:+ String c "" |}.
Proof.
  intros (Hc & Hq & Hr & Hl)%special_false Hst.
  unfold parse_process_char, is_newline. simpl.
  rewrite (bool_decide_eq_false_2 _ Hl), (bool_decide_eq_false_2 _ Hr),
    (bool_decide_eq_false_2 _ Hc), (bool_decide_eq_false_2 _ Hq).
  by destruct Hst as [-> | ->].
Qed.

Lemma reader_plain f c' rest fs b :
  needs_quotes f = false ->
  reader (f +:+ String c' rest)
    {| state := IN_FIELD; fields := fs; field := b |}
  = reader (String c' rest)
      {| state := IN_FIELD; fields := fs; field := b +:+ f |}.
Proof.
  revert b. induction f as [|c f IH]; intros b Hf.
  - by rewrite string_app_nil_r.
  - simpl in Hf. apply orb_false_iff in Hf as [Hc Hf].
    rewrite string_app_cons.
    assert (exists c1 rest1, f +:+ String c' rest = String c1 rest1)
      as (c1 & rest1 & E) by (destruct f; simpl; eauto).
    erewrite reader_step; [|apply process_plain; [done|by right]|].
    2: { rewrite E. apply special_false in Hc as (_ & _ & Hr & Hl).
         by apply line_continues. }
    rewrite IH by done. by rewrite string_app_assoc.
Qed.

(** A character of a field in quotes that is not the quote: the end of a
    line changes nothing there. *)
Lemma reader_quoted_char c rest fs b :
  c <> QUOTE ->
  reader (String c rest)
    {| state := IN_QUOTED_FIELD; fields := fs; field := b |}
  = reader rest
      {| state := IN_QUOTED_FIELD; fields := fs;
         field := b +:+ String c "" |}.
Proof.
  intros Hq. unfold reader at 1; fold reader.
  unfold parse_process_char. simpl.
  rewrite (bool_decide_eq_false_2 _ Hq). unfold parse_add_char. simpl.
  destruct (line_ends c rest); done.
Qed.

Lemma reader_quoted f rest fs b :
  reader (double_quotes f +:+ String QUOTE rest)
    {| state := IN_QUOTED_FIELD; fields := fs; field := b |}
  = reader (String QUOTE rest)
      {| state := IN_QUOTED_FIELD; fields := fs; field := b +:+ f |}.
Proof.
  revert b. induction f as [|c f IH]; intros b.
  - by rewrite string_app_nil_r.
  - simpl. case_bool_decide as Hq.
    + subst c. rewrite !string_app_cons.
      erewrite reader_step; [|reflexivity|by apply line_continues].
      assert (exists c1 rest1,
                 double_quotes f +:+ String QUOTE rest = String c1 rest1)
        as (c1 & rest1 & E) by (destruct (double_quotes f); simpl; eauto).
      erewrite reader_step; [|reflexivity|].
      2: { rewrite E. by apply line_continues. }
      unfold parse_add_char, set_state. simpl.
      rewrite IH. by rewrite string_app_assoc.
    + rewrite string_app_cons, reader_quoted_char by done.
      rewrite IH. by rewrite string_app_assoc.
Qed.

Lemma ready_comma self fs f :
  ready self fs f ->
  parse_process_char self (Some COMMA)
  = Some {| state := START_FIELD; fields := fs ++ [f]; field := "" |}.
Proof.
  destruct self as [st fs' b].
  intros [Hf [[Hs Hb]|[[Hs Hb]|(Hs & Hb & ->)]]]; simpl in *; subst;
    reflexivity.
Qed.

Lemma ready_cr self fs f :
  ready self fs f ->
  parse_process_char self (Some CR)
  = Some {| state := EAT_CRNL; fields := fs ++ [f]; field := "" |}.
Proof.
  destruct self as [st fs' b].
  intros [Hf [[Hs Hb]|[[Hs Hb]|(Hs & Hb & ->)]]]; simpl in *; subst;
    reflexivity.
Qed.

(** One field, from the start of a field to the character after it. *)
Lemma reader_field f c' rest fs :
  c' = COMMA \/ c' = CR ->
  exists self,
    reader (join_append f +:+ String c' rest)
      {| state := START_FIELD; fields := fs; field := "" |}
    = reader (String c' rest) self
    /\ ready self fs f.
Proof.
  intros Hc'. unfold join_append. destruct (needs_quotes f) eqn:Hq.
  - rewrite string_app_cons, string_app_assoc.
    change (String QUOTE "" +:+ String c' rest)
      with (String QUOTE (String c' rest)).
    assert (exists c1 rest1,
               double_quotes f +:+ String QUOTE (String c' rest)
               = String c1 rest1)
      as (c1 & rest1 & E) by (destruct (double_quotes f); simpl; eauto).
    erewrite reader_step; [|reflexivity|].
    2: { rewrite E. by apply line_continues. }
    unfold set_state. simpl. rewrite reader_quoted.
    erewrite reader_step; [|reflexivity|by apply line_continues].
    eexists. split; [reflexivity|]. split; [done|]. right. left. done.
  - destruct f as [|c f].
    + eexists. split; [reflexivity|]. split; [done|]. right. right. done.
    + simpl in Hq. apply orb_false_iff in Hq as [Hc Hq].
      rewrite string_app_cons.
      assert (exists c1 rest1, f +:+ String c' rest = String c1 rest1)
        as (c1 & rest1 & E) by (destruct f; simpl; eauto).
      erewrite reader_step; [|apply process_plain; [done|by left]|].
      2: { rewrite E. apply special_false in Hc as (_ & _ & Hr & Hl).
         by apply line_continues. }
      rewrite reader_plain by done.
      eexists. split; [reflexivity|]. split; [done|]. left. done.
Qed.

(** The end of a record, after its last field. *)
Lemma reader_end self fs f rest :
  ready self fs f ->
  reader (lineterminator +:+ rest) self
  = cons (fs ++ [f]) <$> reader rest parse_reset.
Proof.
  intros Hr. unfold lineterminator.
  change (String CR (String LF "") +:+ rest) with (String CR (String LF rest)).
  erewrite reader_step; [|by apply ready_cr|reflexivity].
  erewrite reader_line; [|reflexivity| |reflexivity|reflexivity].
  - reflexivity.
  - destruct rest; reflexivity.
Qed.

(** The fields of a row that is not empty, from the start of a field. *)
Lemma reader_fields row rest fs :
  row <> [] ->
  reader (join_fields row +:+ lineterminator +:+ rest)
    {| state := START_FIELD; fields := fs; field := "" |}
  = cons (fs ++ row) <$> reader rest parse_reset.
Proof.
  revert fs. induction row as [|f row IH]; intros fs Hrow; [done|].
  destruct row as [|g row].
  - simpl. destruct (reader_field f CR (String LF rest) fs) as (s & E & Hr);
      [by right|].
    unfold lineterminator.
    change (String CR (String LF "") +:+ rest)
      with (String CR (String LF rest)).
    rewrite E.
    by rewrite <- (reader_end s fs f rest Hr).
  - change (join_fields (f :: g :: row))
      with (join_append f +:+ String COMMA (join_fields (g :: row))).
    rewrite string_app_assoc, string_app_cons.
    destruct (reader_field f COMMA
                (join_fields (g :: row) +:+ lineterminator +:+ rest) fs)
      as (s & E & Hr); [by left|].
    rewrite E.
    assert (exists c1 rest1,
               join_fields (g :: row) +:+ lineterminator +:+ rest
               = String c1 rest1) as (c1 & rest1 & E1).
    { destruct (join_fields (g :: row)); simpl; eauto. }
    erewrite reader_step; [|by apply ready_comma|].
    2: { rewrite E1. by apply line_continues. }
    rewrite IH by done. by rewrite <- app_assoc.
Qed.

(** The text of a row that is neither empty nor made of one empty field
    starts with a character that is not a line break. *)
Lemma join_fields_head row rest :
  row <> [] -> row <> [""] ->
  exists c s,
    join_fields row +:+ lineterminator +:+ rest = String c s
    /\ is_newline c = false.
Proof.
  destruct row as [|f row]; [done|]. intros _ Hrow.
  assert (exists c s, join_append f = String c s /\ is_newline c = false
          \/ f = "" /\ row <> []) as (c & s & H).
  { unfold join_append. destruct (needs_quotes f) eqn:Hq.
    - do 2 eexists. left. split; [reflexivity|reflexivity].
    - destruct f as [|c f].
      + exists COMMA, "". right. split; [done|]. by intros ->.
      + simpl in Hq. apply orb_false_iff in Hq as [Hc Hq].
        apply special_false in Hc as (_ & _ & Hr & Hl).
        exists c, f. left. split; [done|]. unfold is_newline.
        by rewrite (bool_decide_eq_false_2 _ Hl),
          (bool_decide_eq_false_2 _ Hr). }
  destruct H as [[E Hn]|[-> Hne]].
  - destruct row as [|g row]; simpl; rewrite E; eauto.
  - destruct row as [|g row]; [done|]. simpl. eauto.
Qed.

Lemma reader_start c rest :
  is_newline c = false ->
  reader (String c rest) parse_reset
  = reader (String c rest)
      {| state := START_FIELD; fields := []; field := "" |}.
Proof.
  intros Hn.
  assert (parse_process_char parse_reset (Some c)
          = parse_process_char
              {| state := START_FIELD; fields := []; field := "" |} (Some c))
    as E.
  { unfold parse_process_char, parse_reset. simpl. by rewrite Hn. }
  unfold reader; fold reader. by rewrite E.
Qed.

(** One row, from the start of a record. *)
Lemma reader_writerow row rest :
  reader (writerow row +:+ rest) parse_reset
  = cons row <$> reader rest parse_reset.
Proof.
  destruct (decide (row = [])) as [->|Hne].
  { change (writerow [] +:+ rest) with (String CR (String LF rest)).
    erewrite reader_step; [|reflexivity|reflexivity].
    erewrite reader_line; [|reflexivity| |reflexivity|reflexivity].
    - reflexivity.
    - destruct rest; reflexivity. }
  destruct (decide (row = [""])) as [->|Hne'].
  { change (writerow [""] +:+ rest)
      with (String QUOTE (String QUOTE (lineterminator +:+ rest))).
    erewrite reader_step; [|reflexivity|reflexivity].
    erewrite reader_step; [|reflexivity|reflexivity].
    rewrite (reader_end _ [] ""); [done|]. split; [done|]. right. left. done. }
  assert (writerow row = join_fields row +:+ lineterminator) as ->.
  { destruct row as [|[|c f] [|g row]]; done. }
  rewrite string_app_assoc.
  destruct (join_fields_head row rest Hne Hne') as (c & s & E & Hn).
  rewrite E, reader_start, <- E by done.
  by rewrite reader_fields.
Qed.

Lemma reader_writerows rows :
  reader (writerows rows) parse_reset = Some rows.
Proof.
  induction rows as [|row rows IH]; [reflexivity|].
  simpl. by rewrite reader_writerow, IH.
Qed.

End Csv.

(** A row whose fields need no quotes is written as its fields with commas
    between them. *)
Lemma writerow_plain row :
  row <> [""] ->
  Forall (fun f => needs_quotes f = false) row ->
  writerow row = String.concat "," row +:+ lineterminator.
Proof.
  intros Hne Hrow.
  assert (writerow row = join_fields row +:+ lineterminator) as ->.
  { destruct row as [|[|c f] [|g row]]; done. }
  f_equal. clear Hne.
  induction Hrow as [|f row Hf Hrow IH]; [done|].
  destruct row as [|g row].
  - simpl. unfold join_append. by rewrite Hf.
  - change (join_fields (f :: g :: row))
      with (join_append f +:+ String COMMA (join_fields (g :: row))).
    rewrite IH. unfold join_append. rewrite Hf. reflexivity.
Qed.

Lemma writerows_fold rows :
  writerows rows = fold_right (fun row rest => writerow row +:+ rest) "" rows.
Proof. induction rows as [|row rows IH]; [done|]. simpl. by rewrite IH. Qed.

(** What [save_to_csv] does when the directory is there or can be made and
    the file can be written. *)
Lemma save_to_csv_run {World : Type} (path_exists : string -> World -> bool)
    (makedirs : string -> World -> option string * World)
    (write_file : string -> string -> World -> option string * World)
    self candles directory (st : State World) w1 w2 :
  let file_path :=
    os_path_join directory
      (symbol self +:+ "_" +:+ interval self +:+ "_" +:+ start self +:+ "_"
         +:+ end_ self +:+ ".csv") in
  let text := writerow HEADER +:+ writerows candles in
  (if path_exists directory (world st) then (None, world st)
   else makedirs directory (world st)) = (None, w1) ->
  write_file file_path text w1 = (None, w2) ->
  save_to_csv path_exists makedirs write_file self candles directory st
  = (Return tt,
     {| world := w2; sent := sent st;
        written := written st ++ [(file_path, text)];
        log := log st
                 ++ [(INFO, "Data has been saved to " +:+ file_path +:+ ".")];
        stdout := stdout st |}).
Proof.
  intros file_path text Hdir Hwrite. subst file_path text.
  unfold save_to_csv, bind, exists_, os_makedirs, open_write, ret, logger.
  destruct (path_exists directory (world st)); cbn beta iota zeta.
  - simplify_eq. cbn [world]. by rewrite Hwrite.
  - rewrite Hdir. cbn [world]. by rewrite Hwrite.
Qed.

(** C9: the text that [save_to_csv] writes is the header of seven names,
    [timestamp,open,high,low,close,volume,turnover], followed by one record
    per candle in the order of the candles; a candle whose fields have no
    comma, quote or line break is the line of its fields as they are, with
    commas between them; and reading the text back with [csv.reader] yields
    the header and then the candles, field for field. *)
Theorem save_to_csv_round_trip {World : Type}
    (path_exists : string -> World -> bool)
    (makedirs : string -> World -> option string * World)
    (write_file : string -> string -> World -> option string * World)
    (self : BybitConnector) (candles : list Candle) (directory : string)
    (st : State World) (w1 w2 : World) :
  let file_path :=
    os_path_join directory
      (symbol self +:+ "_" +:+ interval self +:+ "_" +:+ start self +:+ "_"
         +:+ end_ self +:+ ".csv") in
  let text := writerow HEADER +:+ writerows candles in
  (if path_exists directory (world st) then (None, world st)
   else makedirs directory (world st)) = (None, w1) ->
  write_file file_path text w1 = (None, w2) ->
  (exists st',
      save_to_csv path_exists makedirs write_file self candles directory st
      = (Return tt, st')
      /\ written st' = written st ++ [(file_path, text)])
  /\ text
     = ("timestamp,open,high,low,close,volume,turnover" +:+ lineterminator)
         +:+ fold_right (fun candle rest => writerow candle +:+ rest) ""
               candles
  /\ (forall candle,
        candle <> [""] ->
        Forall (fun f => needs_quotes f = false) candle ->
        writerow candle = String.concat "," candle +:+ lineterminator)
  /\ reader text parse_reset = Some (HEADER :: candles).
Proof.
  intros file_path text Hdir Hwrite. split; [|split; [|split]].
  - pose proof (save_to_csv_run path_exists makedirs write_file self candles
                  directory st w1 w2 Hdir Hwrite) as E.
    eexists. split; [exact E|done].
  - unfold text. by rewrite writerows_fold.
  - apply writerow_plain.
  - apply (reader_writerows (HEADER :: candles)).
Qed.

(** ** The statements on the reference environment *)

Lemma exact_is_exact p w :
  0 <= p_limit p ->
  exact_answer p (fst (Reference.exact PRICE_API_URL p (Some 10) w)).
Proof.
  intros Hp. unfold exact_answer, Reference.exact. simpl.
  do 2 eexists. split; [reflexivity|].
  split; [unfold passes_status; simpl; lia|].
  split; [reflexivity|]. split; [reflexivity|].
  unfold candles_of_data. simpl. rewrite length_replicate. lia.
Qed.

Lemma get_prices_row_count_witness :
  exists rows st',
    get_prices Reference.strptime Reference.timestamp Reference.exact
      (Reference.connector "D" "2024-12-01 00:00:00" "2024-12-04 12:00:00")
      2 2 (Reference.fresh tt)
    = Some (Return rows, st')
    /\ Z.of_nat (length rows) = 3.
Proof.
  edestruct (get_prices_row_count Reference.strptime Reference.timestamp
               unit Reference.exact
               (Reference.connector "D" "2024-12-01 00:00:00"
                  "2024-12-04 12:00:00")
               2 (Reference.fresh tt))
    as (rows & st' & Hrun & Hlen & _).
  - vm_compute. reflexivity.
  - vm_compute. reflexivity.
  - vm_compute. reflexivity.
  - vm_compute. reflexivity.
  - lia.
  - exact exact_is_exact.
  - exists rows, st'. split.
    + apply Hrun. vm_compute. discriminate.
    + rewrite Hlen. vm_compute. reflexivity.
Defined.

Lemma get_prices_empty_window_witness :
  exists st',
    get_prices Reference.strptime Reference.timestamp Reference.exact
      (Reference.connector "D" "2024-12-04 00:00:00" "2024-12-01 00:00:00")
      1000 0 (Reference.fresh tt)
    = Some (Return [], st')
    /\ sent st' = [] /\ world st' = tt.
Proof.
  eapply (get_prices_empty_window Reference.strptime Reference.timestamp
            unit Reference.exact
            (Reference.connector "D" "2024-12-04 00:00:00"
               "2024-12-01 00:00:00")
            1000 0 (Reference.fresh tt)).
  - vm_compute. reflexivity.
  - vm_compute. reflexivity.
  - vm_compute. discriminate.
Defined.

Lemma interval_to_seconds_table_witness :
  _interval_to_seconds "D" (Reference.fresh tt)
  = (Return 86400, Reference.fresh tt)
  /\ _interval_to_seconds "X" (Reference.fresh tt)
     = (Return 86400,
        logged (Reference.fresh tt)
          [(WARNING,
            "Unknown interval 'X'. Defaulting to 'D' (86400 seconds).")]).
Proof.
  split.
  - apply (interval_to_seconds_table unit "D" (Reference.fresh tt)).
    simpl. tauto.
  - apply (interval_to_seconds_table unit "X" (Reference.fresh tt)).
    simpl. intuition discriminate.
Defined.

Lemma get_prices_empty_page_witness :
  exists st' history,
    get_prices Reference.strptime Reference.timestamp Reference.scripted
      (Reference.connector "D" "2024-12-01 00:00:00" "2024-12-04 12:00:00")
      2 (1 + 1)
      (Reference.fresh
         [GetReturns
            (Reference.page 200 [Reference.candle; Reference.candle]);
          GetReturns (Reference.page 200 [])])
    = Some (Return [Reference.candle; Reference.candle], st')
    /\ [Reference.candle; Reference.candle] = fetched history
    /\ length history = 1%nat
    /\ sent st'
       = [] ++ history
           ++ [(request_of
                  (Reference.connector "D" "2024-12-01 00:00:00"
                     "2024-12-04 12:00:00")
                  2 1733313600 86400 1733184000,
                GetReturns (Reference.page 200 []))].
Proof.
  eapply (get_prices_empty_page Reference.strptime Reference.timestamp
            (list HttpResult) Reference.scripted
            (Reference.connector "D" "2024-12-01 00:00:00"
               "2024-12-04 12:00:00")
            2 0
            (Reference.fresh
               [GetReturns
                  (Reference.page 200 [Reference.candle; Reference.candle]);
                GetReturns (Reference.page 200 [])])
            {| year := 2024; month := 12; day := 1; hour := 0; minute := 0;
               second := 0 |}
            {| year := 2024; month := 12; day := 4; hour := 12; minute := 0;
               second := 0 |}
            86400 _ 1).
  - vm_compute. reflexivity.
  - vm_compute. reflexivity.
  - vm_compute. reflexivity.
  - vm_compute. reflexivity.
  - vm_compute. reflexivity.
  - vm_compute. reflexivity.
  - unfold passes_status. simpl. lia.
  - reflexivity.
  - reflexivity.
  - reflexivity.
Defined.

Lemma get_prices_api_error_witness :
  exists e st',
    get_prices Reference.strptime Reference.timestamp Reference.scripted
      (Reference.connector "D" "2024-12-01 00:00:00" "2024-12-04 12:00:00")
      2 (1 + 1)
      (Reference.fresh
         [GetReturns
            (Reference.page 200 [Reference.candle; Reference.candle]);
          GetReturns
            {| status_code := 200; reason := "OK"; url := PRICE_API_URL;
               body := Json {| retCode := Some 10001;
                               retMsg := Some "Too many visits";
                               result := None |} |}])
    = Some (Raise e, st')
    /\ e = ValueError "API error: Too many visits" None
    /\ contains (str e) "Too many visits".
Proof.
  edestruct (get_prices_api_error Reference.strptime Reference.timestamp
               (list HttpResult) Reference.scripted
               (Reference.connector "D" "2024-12-01 00:00:00"
                  "2024-12-04 12:00:00")
               2 0
               (Reference.fresh
                  [GetReturns
                     (Reference.page 200
                        [Reference.candle; Reference.candle]);
                   GetReturns
                     {| status_code := 200; reason := "OK";
                        url := PRICE_API_URL;
                        body := Json {| retCode := Some 10001;
                                        retMsg := Some "Too many visits";
                                        result := None |} |}])
               {| year := 2024; month := 12; day := 1; hour := 0;
                  minute := 0; second := 0 |}
               {| year := 2024; month := 12; day := 4; hour := 12;
                  minute := 0; second := 0 |}
               86400
               (Reference.fresh
                  [GetReturns
                     (Reference.page 200
                        [Reference.candle; Reference.candle]);
                   GetReturns
                     {| status_code := 200; reason := "OK";
                        url := PRICE_API_URL;
                        body := Json {| retCode := Some 10001;
                                        retMsg := Some "Too many visits";
                                        result := None |} |}])
               1)
    as (e & st' & Hrun & He & Hmsg & _).
  - vm_compute. reflexivity.
  - vm_compute. reflexivity.
  - vm_compute. reflexivity.
  - vm_compute. reflexivity.
  - vm_compute. reflexivity.
  - vm_compute. reflexivity.
  - unfold passes_status. simpl. lia.
  - reflexivity.
  - simpl. discriminate.
  - exists e, st'. split; [exact Hrun|]. split; [exact He|].
    apply Hmsg. reflexivity.
Defined.

Lemma get_prices_transport_failure_witness :
  exists kind msg st',
    get_prices Reference.strptime Reference.timestamp Reference.scripted
      (Reference.connector "D" "2024-12-01 00:00:00" "2024-12-04 12:00:00")
      2 (1 + 1)
      (Reference.fresh
         [GetReturns
            (Reference.page 200 [Reference.candle; Reference.candle]);
          GetReturns
            {| status_code := 500; reason := "Internal Server Error";
               url := PRICE_API_URL; body := NotJson (RequestsJSONDecodeError "Expecting value") |}])
    = Some (Raise (RequestException kind msg), st')
    /\ kind = HTTPError
    /\ length (sent st') = 2%nat.
Proof.
  edestruct (get_prices_transport_failure Reference.strptime
               Reference.timestamp (list HttpResult) Reference.scripted
               (Reference.connector "D" "2024-12-01 00:00:00"
                  "2024-12-04 12:00:00")
               2 0
               (Reference.fresh
                  [GetReturns
                     (Reference.page 200
                        [Reference.candle; Reference.candle]);
                   GetReturns
                     {| status_code := 500;
                        reason := "Internal Server Error";
                        url := PRICE_API_URL;
                        body := NotJson (RequestsJSONDecodeError "Expecting value") |}])
               {| year := 2024; month := 12; day := 1; hour := 0;
                  minute := 0; second := 0 |}
               {| year := 2024; month := 12; day := 4; hour := 12;
                  minute := 0; second := 0 |}
               86400
               (Reference.fresh
                  [GetReturns
                     (Reference.page 200
                        [Reference.candle; Reference.candle]);
                   GetReturns
                     {| status_code := 500;
                        reason := "Internal Server Error";
                        url := PRICE_API_URL;
                        body := NotJson (RequestsJSONDecodeError "Expecting value") |}])
               1)
    as (kind & msg & st' & Hrun & _ & Hkind & _ & _ & Hsent & _).
  - vm_compute. reflexivity.
  - vm_compute. reflexivity.
  - vm_compute. reflexivity.
  - vm_compute. reflexivity.
  - vm_compute. reflexivity.
  - vm_compute. reflexivity.
  - right. eexists. split; [reflexivity|]. simpl. lia.
  - exists kind, msg, st'. split; [exact Hrun|].
    split; [by eapply Hkind|]. rewrite Hsent. reflexivity.
Defined.

(** C6 as the specification words it fails: an answer with status 300,
    which is not a 2xx status and which [requests.get] hands over with its
    body, is taken as a page when the body decodes, and its candles are
    returned. *)
Lemma get_prices_status_300_counterexample :
  let response :=
    {| status_code := 300; reason := "Multiple Choices";
       url := PRICE_API_URL;
       body := Json {| retCode := Some 0; retMsg := Some "OK";
                       result :=
                         Some {| result_list := Some [Reference.candle] |}
                    |} |} in
  ~ (200 <= status_code response < 300)
  /\ exists st',
       get_prices Reference.strptime Reference.timestamp Reference.scripted
         (Reference.connector "D" "2024-12-01 00:00:00" "2024-12-02 00:00:00")
         1000 1 (Reference.fresh [GetReturns response])
       = Some (Return [Reference.candle], st')
       /\ map snd (sent st') = [GetReturns response].
Proof.
  intros response. split; [simpl; lia|].
  eexists. split; vm_compute; reflexivity.
Qed.

Lemma init_never_fails_witness :
  let self :=
    Reference.connector "D" "2024-12-01 00:00:00" "2024-12-02 25:00:00" in
  __init__ "inverse" "BTCUSD" "D" "2024-12-01 00:00:00"
    "2024-12-02 25:00:00"
  = Return self
  /\ exists e st',
       get_prices Reference.strptime Reference.timestamp Reference.exact
         self 1000 1 (Reference.fresh tt)
       = Some (Raise e, st')
       /\ sent st' = [].
Proof.
  intros self.
  destruct (init_never_fails Reference.strptime Reference.timestamp unit
              Reference.exact "inverse" "BTCUSD" "D" "2024-12-01 00:00:00"
              "2024-12-02 25:00:00" 1000 1 (Reference.fresh tt))
    as [Hinit Hget].
  split; [exact Hinit|]. apply Hget. right. eexists. vm_compute.
  reflexivity.
Defined.

(** C7 as the specification words it fails: the constructor accepts a
    start that does not parse, the one of the test of the repository. *)
Lemma init_invalid_date_counterexample :
  (exists msg,
      Reference.strptime "2024-12-01 25:00:00" DATE_FORMAT = inl msg)
  /\ exists self,
       __init__ "inverse" "BTCUSD" "D" "2024-12-01 25:00:00"
         "2024-12-02 00:00:00"
       = Return self.
Proof. split; eexists; vm_compute; reflexivity. Qed.

Lemma get_prices_invalid_date_witness :
  exists msg,
    get_prices Reference.strptime Reference.timestamp Reference.exact
      (Reference.connector "D" "2024-12-01 25:00:00" "2024-12-02 00:00:00")
      1000 1 (Reference.fresh tt)
    = Some (Raise (ValueError
                     "Invalid date format. Use 'YYYY-MM-DD HH:MM:SS'."
                     (Some (ValueError msg None))),
            {| world := tt; sent := []; written := [];
               log := [(ERROR,
                        "Invalid date format: 2024-12-01 25:00:00. Expected 'YYYY-MM-DD HH:MM:SS'.")];
               stdout := [] |}).
Proof.
  eexists.
  apply (proj1 (get_prices_invalid_date Reference.strptime
                  Reference.timestamp unit Reference.exact
                  (Reference.connector "D" "2024-12-01 25:00:00"
                     "2024-12-02 00:00:00")
                  1000 1 (Reference.fresh tt))).
  vm_compute. reflexivity.
Defined.

(** C8 as the specification words it fails: for a start on the 30th of
    February the error raised does not carry the string, neither in its
    message nor in the message of its cause; only the log record does. *)
Lemma get_prices_invalid_date_counterexample :
  let self :=
    Reference.connector "D" "2023-02-30 00:00:00" "2023-03-01 00:00:00" in
  exists msg cause st',
    Reference.strptime (start self) DATE_FORMAT = inl cause
    /\ get_prices Reference.strptime Reference.timestamp Reference.exact
         self 1000 1 (Reference.fresh tt)
       = Some (Raise (ValueError msg (Some (ValueError cause None))), st')
    /\ ~ contains msg (start self)
    /\ ~ contains cause (start self)
    /\ sent st' = [].
Proof.
  intros self. do 3 eexists. split; [vm_compute; reflexivity|].
  split; [vm_compute; reflexivity|].
  split; [|split; [|reflexivity]];
    intros H; apply contains_occurs in H; vm_compute in H; discriminate.
Qed.

Lemma save_to_csv_round_trip_witness :
  let text :=
    writerow HEADER +:+ writerows [Reference.candle; ["a,b"; ""]] in
  (exists st',
      save_to_csv Reference.present Reference.mkdirs Reference.store
        (Reference.connector "D" "2024-12-01 00:00:00" "2024-12-02 00:00:00")
        [Reference.candle; ["a,b"; ""]] "./data/raw" (Reference.fresh tt)
      = (Return tt, st')
      /\ written st'
         = [("./data/raw/BTCUSD_D_2024-12-01 00:00:00_2024-12-02 00:00:00.csv",
             text)])
  /\ reader text parse_reset
     = Some [HEADER; Reference.candle; ["a,b"; ""]].
Proof.
  intros text.
  destruct (save_to_csv_round_trip Reference.present Reference.mkdirs
              Reference.store
              (Reference.connector "D" "2024-12-01 00:00:00"
                 "2024-12-02 00:00:00")
              [Reference.candle; ["a,b"; ""]] "./data/raw"
              (Reference.fresh tt) tt tt eq_refl eq_refl)
    as (Hrun & _ & _ & Hread).
  split; [exact Hrun|exact Hread].
Defined.

Lemma get_prices_terminates_witness :
  exists outcome st' history,
    get_prices Reference.strptime Reference.timestamp Reference.exact
      (Reference.connector "D" "2024-12-01 00:00:00" "2024-12-04 12:00:00")
      2 2 (Reference.fresh tt)
    = Some (outcome, st')
    /\ sent st' = [] ++ history
    /\ Z.of_nat (length history) <= 2.
Proof.
  destruct (get_prices_terminates Reference.strptime Reference.timestamp
              unit Reference.exact
              (Reference.connector "D" "2024-12-01 00:00:00"
                 "2024-12-04 12:00:00")
              2 (Reference.fresh tt)
              {| year := 2024; month := 12; day := 1; hour := 0;
                 minute := 0; second := 0 |}
              {| year := 2024; month := 12; day := 4; hour := 12;
                 minute := 0; second := 0 |}
              86400 (Reference.fresh tt) eq_refl eq_refl eq_refl
              ltac:(lia))
    as (_ & Hrun & _).
  apply (Hrun 2%nat). vm_compute. discriminate.
Defined.

(** ** The older copy against the module *)

(** The older [_interval_to_seconds] returns the same number, and has no
    logger to warn. *)
Lemma legacy_interval_to_seconds {World : Type} interval (st : State World) :
  fst (_interval_to_seconds interval st)
  = Return (Legacy._interval_to_seconds interval).
Proof. by rewrite interval_to_seconds_run. Qed.

(** The older [save_to_csv] writes a header of six names. *)
Lemma legacy_header :
  writerow Legacy.HEADER
  = "timestamp,open,high,low,close,volume" +:+ lineterminator
  /\ writerow HEADER
     = "timestamp,open,high,low,close,volume,turnover" +:+ lineterminator.
Proof. split; reflexivity. Qed.

(** The older [get_prices] reads the body before it looks at the status:
    an answer with status 500 and a body that decodes raises the
    [ValueError] of an API error there. *)
Lemma legacy_status_500 :
  exists st',
    Legacy.get_prices Reference.strptime Reference.timestamp
      Reference.scripted
      (Reference.connector "D" "2024-12-01 00:00:00" "2024-12-02 00:00:00")
      1000 1 (Reference.fresh [GetReturns (Reference.page 500 [])])
    = Some (Raise (ValueError "API error: OK" None), st').
Proof. eexists. vm_compute. reflexivity. Qed.

(** ** Further properties of the fetch *)

Section Fetch.

Variable strptime : string -> string -> string + datetime.
Variable timestamp : datetime -> Z.
Variable World : Type.
Variable requests_get :
  string -> Params -> option Z -> World -> HttpResult * World.

Implicit Types (self : BybitConnector) (st : State World) (p : Params).
Implicit Types (all_candles : list Candle) (r : HttpResult).

(** Every way one pass through the body can end: one exchange, for the
    request of the cursor; at the bottom of the body its candles, which are
    some, were appended; at [break] it brought none. *)
Lemma body_cases self limit end_timestamp seconds_per_candle all_candles
    batch_start st outcome st' :
  get_prices_body requests_get self limit end_timestamp seconds_per_candle
    all_candles batch_start st = (outcome, st') ->
  exists r,
    sent st'
    = sent st
        ++ [(request_of self limit end_timestamp seconds_per_candle
               batch_start, r)]
    /\ written st' = written st
    /\ stdout st' = stdout st
    /\ match outcome with
       | Return (Continue all_candles' batch_start') =>
           candles_of r <> []
           /\ all_candles' = all_candles ++ candles_of r
           /\ batch_start'
              = Z.min (batch_start + limit * seconds_per_candle)
                  end_timestamp
       | Return (Break all_candles') =>
           candles_of r = [] /\ all_candles' = all_candles
       | Raise e => True
       end.
Proof.
  destruct (requests_get PRICE_API_URL
              (request_of self limit end_timestamp seconds_per_candle
                 batch_start) (Some 10) (world st)) as [r w] eqn:H.
  intros E. exists r. destruct r as [kind msg|response].
  - erewrite body_get_raises in E by exact H. by simplify_eq.
  - destruct (decide (400 <= status_code response < 600)) as [Hs|Hs].
    { edestruct body_status_raises as [msg E']; [exact H|exact Hs|].
      rewrite E' in E. by simplify_eq. }
    destruct (body response) as [err|d] eqn:Hb.
    { erewrite body_json_raises in E by done. destruct err; by simplify_eq. }
    destruct (decide (retCode d = Some 0)) as [Hc|Hc].
    + destruct (decide (candles_of_data d = [])) as [He|He].
      * erewrite body_empty_page in E by done. simplify_eq. simpl.
        by rewrite Hb.
      * erewrite body_page in E by done. simplify_eq. simpl.
        by rewrite Hb.
    + pose proof (body_api_error _ requests_get self limit end_timestamp
                    seconds_per_candle all_candles batch_start st _ _ _ H Hs
                    Hb Hc) as E'.
      simpl in E'. rewrite E' in E. by simplify_eq.
Qed.

(** What a loop that ended has done: the candles returned are the candles
    of its exchanges, in order, after those it started with; the fields
    [written] and [stdout] of the state are as they were. *)
Lemma while_result fuel self limit end_timestamp seconds_per_candle
    all_candles batch_start st outcome st' :
  get_prices_while requests_get fuel self limit end_timestamp
    seconds_per_candle all_candles batch_start st = Some (outcome, st') ->
  exists history,
    sent st' = sent st ++ history
    /\ written st' = written st
    /\ stdout st' = stdout st
    /\ (forall rows, outcome = Return rows ->
          rows = all_candles ++ fetched history).
Proof.
  revert all_candles batch_start st.
  induction fuel as [|fuel IH]; intros all_candles batch_start st.
  - simpl. case_decide; [done|]. intros E. simplify_eq. exists [].
    rewrite !app_nil_r. repeat split; try done. intros rows E. by simplify_eq.
  - destruct (decide (batch_start < end_timestamp)) as [Hlt|Hge].
    2: { rewrite while_done by lia. intros E. simplify_eq. exists [].
         rewrite !app_nil_r. repeat split; try done.
         intros rows E. by simplify_eq. }
    rewrite while_step by done.
    destruct (get_prices_body requests_get self limit end_timestamp
                seconds_per_candle all_candles batch_start st)
      as [[[a b|a]|e] st1] eqn:Eb;
      apply body_cases in Eb as (r & Hs & Hw & Ho & Hcase); intros E.
    + destruct Hcase as (_ & -> & ->).
      apply IH in E as (history & Hs' & Hw' & Ho' & Hrows).
      eexists (_ :: history). rewrite Hs', Hs, <- app_assoc.
      split; [done|]. split; [congruence|]. split; [congruence|].
      intros rows Er. rewrite (Hrows rows Er). unfold fetched. simpl.
      by rewrite app_assoc.
    + destruct Hcase as (He & ->). simplify_eq. eexists [_].
      split; [done|]. split; [done|]. split; [done|].
      intros rows Er. simplify_eq. unfold fetched. simpl.
      by rewrite He, !app_nil_r.
    + simplify_eq. eexists [_]. repeat split; done.
Qed.

(** The count a request asks for is between 0 and the page limit, and the
    candles it asks for end at or before the end of the window. *)
Lemma request_bounds self limit end_timestamp seconds_per_candle batch_start :
  1 <= limit -> 0 < seconds_per_candle -> batch_start < end_timestamp ->
  let p :=
    request_of self limit end_timestamp seconds_per_candle batch_start in
  0 <= p_limit p <= limit
  /\ p_start p + p_limit p * seconds_per_candle <= end_timestamp.
Proof.
  intros Hl Hs Hlt. simpl.
  set (d := Z.min (batch_start + limit * seconds_per_candle) end_timestamp
            - batch_start).
  assert (0 <= d <= limit * seconds_per_candle) as Hd by (unfold d; nia).
  assert (batch_start + d <= end_timestamp) as Hend by (unfold d; lia).
  pose proof (Z.div_mod d seconds_per_candle ltac:(lia)) as Hdm.
  pose proof (Z.mod_pos_bound d seconds_per_candle Hs) as Hm.
  split; [split|]; nia.
Qed.

(** The cursors of a loop that ended, for a page limit of at least 1: the
    request number [i] starts [i] full pages after the first, before the
    end of the window. *)
Lemma while_grid fuel self limit end_timestamp seconds_per_candle
    all_candles batch_start st outcome st' :
  1 <= limit -> 0 < seconds_per_candle ->
  get_prices_while requests_get fuel self limit end_timestamp
    seconds_per_candle all_candles batch_start st = Some (outcome, st') ->
  exists history,
    sent st' = sent st ++ history
    /\ forall (i : nat) x,
         history !! i = Some x ->
         let cursor :=
           batch_start + Z.of_nat i * (limit * seconds_per_candle) in
         cursor < end_timestamp
         /\ fst x
            = request_of self limit end_timestamp seconds_per_candle cursor.
Proof.
  intros Hl Hsec. revert all_candles batch_start st.
  induction fuel as [|fuel IH]; intros all_candles batch_start st.
  - simpl. case_decide; [done|]. intros E. simplify_eq. exists [].
    rewrite app_nil_r. split; [done|]. intros i x Hi. done.
  - destruct (decide (batch_start < end_timestamp)) as [Hlt|Hge].
    2: { rewrite while_done by lia. intros E. simplify_eq. exists [].
         rewrite app_nil_r. split; [done|]. intros i x Hi. done. }
    rewrite while_step by done.
    assert (forall r (i : nat) x,
               [(request_of self limit end_timestamp seconds_per_candle
                   batch_start, r)] !! i = Some x ->
               batch_start + Z.of_nat i * (limit * seconds_per_candle)
               < end_timestamp
               /\ fst x
                  = request_of self limit end_timestamp seconds_per_candle
                      (batch_start
                       + Z.of_nat i * (limit * seconds_per_candle)))
      as Hone.
    { intros r [|i] x Hi; [|by destruct i]. simpl in Hi. simplify_eq.
      replace (batch_start + Z.of_nat 0 * (limit * seconds_per_candle))
        with batch_start by lia.
      split; [lia|reflexivity]. }
    destruct (get_prices_body requests_get self limit end_timestamp
                seconds_per_candle all_candles batch_start st)
      as [[[a b|a]|e] st1] eqn:Eb;
      apply body_cases in Eb as (r & Hs & _ & _ & Hcase); intros E.
    + destruct Hcase as (_ & _ & ->).
      destruct (decide (batch_start + limit * seconds_per_candle
                        < end_timestamp)) as [Hfull|Hlast].
      * replace (Z.min (batch_start + limit * seconds_per_candle)
                   end_timestamp)
          with (batch_start + limit * seconds_per_candle) in E by lia.
        apply IH in E as (history & Hs' & Hgrid).
        eexists (_ :: history). rewrite Hs', Hs, <- app_assoc.
        split; [done|]. intros [|i] x Hi.
        -- by apply (Hone r 0%nat x).
        -- simpl in Hi. apply Hgrid in Hi. simpl in Hi.
           replace (batch_start + Z.of_nat (S i)
                                  * (limit * seconds_per_candle))
             with (batch_start + limit * seconds_per_candle
                   + Z.of_nat i * (limit * seconds_per_candle)) by lia.
           done.
      * rewrite while_done in E by lia. simplify_eq.
        eexists [_]. split; [exact Hs|]. intros i x Hi. by eapply Hone.
    + simplify_eq. eexists [_]. split; [exact Hs|]. intros i x Hi. by eapply Hone.
    + simplify_eq. eexists [_]. split; [exact Hs|]. intros i x Hi. by eapply Hone.
Qed.

(** X1: when the page that follows [n] pages of candles passes
    [raise_for_status] and its body does not decode, [get_prices] raises,
    for every fuel above [n], the error of [response.json()], with the
    message of the decoder, after one record for the logger.  The
    [JSONDecodeError] of [requests], a [RequestException] and a
    [ValueError] at once, is caught by the first [except] clause and logged
    at level ERROR; the plain [ValueError] of the older versions of
    [requests] is caught by the second and logged at level CRITICAL.  The
    candles of the earlier pages are not returned and the request is not
    sent again. *)
Theorem get_prices_undecodable_body self limit fuel st ds de seconds st1 n
    all_candles batch_start st2 response w err :
  strptime (start self) DATE_FORMAT = inr ds ->
  strptime (end_ self) DATE_FORMAT = inr de ->
  _interval_to_seconds (interval self) st = (Return seconds, st1) ->
  passes requests_get n self limit (timestamp de) seconds [] (timestamp ds)
    st1 = Some (all_candles, batch_start, st2) ->
  batch_start < timestamp de ->
  requests_get PRICE_API_URL
    (request_of self limit (timestamp de) seconds batch_start) (Some 10)
    (world st2) = (GetReturns response, w) ->
  passes_status response ->
  body response = NotJson err ->
  let after :=
    exchanged st2 (request_of self limit (timestamp de) seconds batch_start)
      (GetReturns response) w in
  get_prices strptime timestamp requests_get self limit (n + S fuel) st
  = match err with
    | RequestsJSONDecodeError msg =>
        Some (Raise (JSONDecodeError msg),
              logged after [(ERROR, "HTTP request failed: " +:+ msg)])
    | PlainJSONDecodeError msg =>
        Some (Raise (ValueError msg None),
              logged after
                [(CRITICAL,
                  "Unexpected error during API request: " +:+ msg)])
    end
  /\ (forall msg,
        isinstance_RequestException (JSONDecodeError msg) = true
        /\ isinstance_ValueError (JSONDecodeError msg) = true
        /\ isinstance_RequestException (ValueError msg None) = false).
Proof.
  intros Es Ee Ei Ep Hlt Hget Hs Hb after. split; [|done].
  erewrite get_prices_valid by done.
  erewrite while_after by exact Ep.
  rewrite while_step by done.
  erewrite body_json_raises by done. by destruct err.
Qed.

(** X2: for a page limit of at least 1 and fuel for the window,
    [get_prices] gives a result on every network; when the result is a
    list, it is the candles of all the exchanges of the fetch, in the order
    of the exchanges, of whatever length the pages were, and the last
    record handed to the logger tells its length. *)
Theorem get_prices_returns_pages self limit st ds de seconds st1 fuel :
  strptime (start self) DATE_FORMAT = inr ds ->
  strptime (end_ self) DATE_FORMAT = inr de ->
  _interval_to_seconds (interval self) st = (Return seconds, st1) ->
  1 <= limit ->
  steps (timestamp de - timestamp ds) (limit * seconds) <= Z.of_nat fuel ->
  exists outcome st' history,
    get_prices strptime timestamp requests_get self limit fuel st
    = Some (outcome, st')
    /\ sent st' = sent st ++ history
    /\ forall rows,
         outcome = Return rows ->
         rows = fetched history
         /\ last (log st')
            = Some (INFO,
                    "Fetched " +:+ pretty (length rows)
                      +:+ " candlesticks.").
Proof.
  intros Es Ee Ei Hlimit Hfuel.
  assert (0 < seconds) as Hsec
    by (eapply interval_to_seconds_positive; exact Ei).
  pose proof (steps_cover (timestamp de - timestamp ds) (limit * seconds)
                ltac:(nia)) as Hcover.
  destruct (while_terminates _ requests_get self limit (timestamp de)
              seconds Hlimit Hsec
              (Z.to_nat (steps (timestamp de - timestamp ds)
                           (limit * seconds)))
              [] (timestamp ds) st1 Hcover)
    as (outcome & st2 & E & _).
  eapply while_more_fuel with (fuel' := fuel) in E; [|lia].
  erewrite get_prices_valid by done. rewrite E.
  apply while_result in E as (history & Hs & _ & _ & Hrows).
  apply interval_to_seconds_state in Ei as (_ & Hs1 & _).
  destruct outcome as [rows|e].
  - do 2 eexists. exists history. split; [done|]. simpl.
    rewrite Hs, Hs1. split; [done|]. intros rows' Er. simplify_eq.
    split; [by apply Hrows|]. by rewrite last_snoc.
  - do 2 eexists. exists history. split; [done|].
    rewrite Hs, Hs1. split; [done|]. intros rows Er. done.
Qed.

(** X3: for a page limit of at least 1 and fuel for the window, the
    requests of a fetch lie on a grid: the request number [i] is for the
    connector's category, symbol and interval, starts [i] full pages after
    the start of the window and before its end, asks for between 0 and
    [limit] candles, and the candles it asks for end at or before the end
    of the window.  So no two requests overlap and none reaches past the
    end. *)
Theorem get_prices_request_grid self limit st ds de seconds st1 fuel :
  strptime (start self) DATE_FORMAT = inr ds ->
  strptime (end_ self) DATE_FORMAT = inr de ->
  _interval_to_seconds (interval self) st = (Return seconds, st1) ->
  1 <= limit ->
  steps (timestamp de - timestamp ds) (limit * seconds) <= Z.of_nat fuel ->
  exists outcome st' history,
    get_prices strptime timestamp requests_get self limit fuel st
    = Some (outcome, st')
    /\ sent st' = sent st ++ history
    /\ forall (i : nat) p r,
         history !! i = Some (p, r) ->
         p_category p = category self
         /\ p_symbol p = symbol self
         /\ p_interval p = interval self
         /\ p_start p = timestamp ds + Z.of_nat i * (limit * seconds)
         /\ p_start p < timestamp de
         /\ 0 <= p_limit p <= limit
         /\ p_start p + p_limit p * seconds <= timestamp de.
Proof.
  intros Es Ee Ei Hlimit Hfuel.
  assert (0 < seconds) as Hsec
    by (eapply interval_to_seconds_positive; exact Ei).
  pose proof (steps_cover (timestamp de - timestamp ds) (limit * seconds)
                ltac:(nia)) as Hcover.
  destruct (while_terminates _ requests_get self limit (timestamp de)
              seconds Hlimit Hsec
              (Z.to_nat (steps (timestamp de - timestamp ds)
                           (limit * seconds)))
              [] (timestamp ds) st1 Hcover)
    as (outcome & st2 & E & _).
  eapply while_more_fuel with (fuel' := fuel) in E; [|lia].
  erewrite get_prices_valid by done. rewrite E.
  apply while_grid in E as (history & Hs & Hgrid); [|done..].
  apply interval_to_seconds_state in Ei as (_ & Hs1 & _).
  assert (forall (i : nat) p r,
             history !! i = Some (p, r) ->
             p_category p = category self
             /\ p_symbol p = symbol self
             /\ p_interval p = interval self
             /\ p_start p = timestamp ds + Z.of_nat i * (limit * seconds)
             /\ p_start p < timestamp de
             /\ 0 <= p_limit p <= limit
             /\ p_start p + p_limit p * seconds <= timestamp de) as Hall.
  { intros i p r Hi. apply Hgrid in Hi as [Hlt Hp]. simpl in Hp. subst p.
    pose proof (request_bounds self limit (timestamp de) seconds _ Hlimit
                  Hsec Hlt) as Hb.
    simpl in Hb. simpl. repeat split; try done; lia. }
  destruct outcome as [rows|e]; do 2 eexists; exists history;
    (split; [done|]); simpl; rewrite Hs, Hs1; (split; [done|exact Hall]).
Qed.

(** X4: when the window is shorter than one candle, the fetch is one
    request, for 0 candles, whatever the page limit of at least 1 and
    whatever the network answers. *)
Theorem get_prices_short_window self limit st ds de seconds st1 fuel :
  strptime (start self) DATE_FORMAT = inr ds ->
  strptime (end_ self) DATE_FORMAT = inr de ->
  _interval_to_seconds (interval self) st = (Return seconds, st1) ->
  1 <= limit ->
  0 < timestamp de - timestamp ds < seconds ->
  exists outcome st' r,
    get_prices strptime timestamp requests_get self limit (S fuel) st
    = Some (outcome, st')
    /\ sent st'
       = sent st
           ++ [({| p_category := category self; p_symbol := symbol self;
                   p_interval := interval self; p_start := timestamp ds;
                   p_limit := 0 |}, r)].
Proof.
  intros Es Ee Ei Hlimit Hshort.
  erewrite get_prices_valid by done. rewrite while_step by lia.
  apply interval_to_seconds_state in Ei as (_ & Hs1 & _).
  assert (request_of self limit (timestamp de) seconds (timestamp ds)
          = {| p_category := category self; p_symbol := symbol self;
               p_interval := interval self; p_start := timestamp ds;
               p_limit := 0 |}) as Hp.
  { unfold request_of. f_equal. apply Z.div_small. nia. }
  destruct (get_prices_body requests_get self limit (timestamp de) seconds
              [] (timestamp ds) st1) as [[[a b|a]|e] st2] eqn:Eb;
    apply body_cases in Eb as (r & Hs & _ & _ & Hcase); rewrite Hp in Hs.
  - destruct Hcase as (_ & _ & ->). rewrite while_done by nia.
    do 2 eexists. exists r. split; [done|]. simpl. by rewrite Hs, Hs1.
  - do 2 eexists. exists r. split; [done|]. simpl. by rewrite Hs, Hs1.
  - do 2 eexists. exists r. split; [done|]. by rewrite Hs, Hs1.
Qed.

(** X5: the page limit is not checked.  With a page limit of 0 or less, a
    start before the end and a network that always has candles, the cursor
    never moves forward and [get_prices] gives no result, whatever the
    fuel. *)
Theorem get_prices_limit_not_positive self limit st ds de fuel :
  strptime (start self) DATE_FORMAT = inr ds ->
  strptime (end_ self) DATE_FORMAT = inr de ->
  timestamp ds < timestamp de ->
  limit <= 0 ->
  (forall p w,
      exists response w' response_data,
        requests_get PRICE_API_URL p (Some 10) w = (GetReturns response, w')
        /\ passes_status response
        /\ body response = Json response_data
        /\ retCode response_data = Some 0
        /\ candles_of_data response_data <> []) ->
  get_prices strptime timestamp requests_get self limit fuel st = None.
Proof.
  intros Es Ee Hlt Hlimit Hnet.
  erewrite get_prices_valid; [|exact Es|exact Ee|apply interval_to_seconds_run].
  pose proof (conversion_positive (interval self)) as Hsec.
  set (seconds := default 86400 (conversion !! interval self)) in *.
  assert (forall all_candles batch_start st',
             batch_start < timestamp de ->
             get_prices_while requests_get fuel self limit (timestamp de)
               seconds all_candles batch_start st' = None) as Hloop.
  { clear st. induction fuel as [|fuel' IH]; intros all_candles batch_start st' Hb.
    - simpl. case_decide; [done|lia].
    - rewrite while_step by done.
      destruct (Hnet (request_of self limit (timestamp de) seconds
                        batch_start) (world st'))
        as (response & w' & d & Hget & Hs & Hbody & Hc & He).
      erewrite body_page by done. apply IH. nia. }
  by rewrite Hloop.
Qed.

End Fetch.

(** ** Further properties of the file *)

Section Save.

Variable World : Type.
Variable path_exists : string -> World -> bool.
Variable makedirs : string -> World -> option string * World.
Variable write_file : string -> string -> World -> option string * World.

Implicit Types (self : BybitConnector) (st : State World).

(** Every way [save_to_csv] can end. *)
Lemma save_to_csv_cases self candles directory st :
  let file_path :=
    os_path_join directory
      (symbol self +:+ "_" +:+ interval self +:+ "_" +:+ start self +:+ "_"
         +:+ end_ self +:+ ".csv") in
  let text := writerow HEADER +:+ writerows candles in
  let present := path_exists directory (world st) in
  let made := if present then (None, world st)
              else makedirs directory (world st) in
  save_to_csv path_exists makedirs write_file self candles directory st
  = match fst made with
    | Some msg =>
        (Raise (IOError msg),
         {| world := snd made; sent := sent st; written := written st;
            log := log st; stdout := stdout st |})
    | None =>
        match write_file file_path text (snd made) with
        | (Some msg, w) =>
            (Raise (IOError msg),
             {| world := w; sent := sent st; written := written st;
                log := log st
                         ++ [(ERROR,
                              "Failed to write data to " +:+ file_path
                                +:+ ": " +:+ msg)];
                stdout := stdout st |})
        | (None, w) =>
            (Return tt,
             {| world := w; sent := sent st;
                written := written st ++ [(file_path, text)];
                log := log st
                         ++ [(INFO,
                              "Data has been saved to " +:+ file_path
                                +:+ ".")];
                stdout := stdout st |})
        end
    end.
Proof.
  intros file_path text present made. subst file_path text present made.
  unfold save_to_csv, bind, exists_, os_makedirs, open_write, ret, logger,
    raise.
  destruct (path_exists directory (world st)); cbn beta iota zeta.
  - cbn [fst snd world].
    destruct (write_file _ _ (world st)) as [[msg|] w]; [|by destruct st].
    reflexivity.
  - destruct (makedirs directory (world st)) as [[msg|] w1];
      cbn [fst snd world]; [reflexivity|].
    destruct (write_file _ _ w1) as [[msg|] w]; reflexivity.
Qed.


(** X8: when the file cannot be written, [save_to_csv] raises the
    [IOError] of the write after one ERROR record that names the path and
    the error, and no file counts as written. *)
Theorem save_to_csv_write_failure self candles directory st w1 w2 msg :
  let file_path :=
    os_path_join directory
      (symbol self +:+ "_" +:+ interval self +:+ "_" +:+ start self +:+ "_"
         +:+ end_ self +:+ ".csv") in
  (if path_exists directory (world st) then (None, world st)
   else makedirs directory (world st)) = (None, w1) ->
  write_file file_path (writerow HEADER +:+ writerows candles) w1
  = (Some msg, w2) ->
  save_to_csv path_exists makedirs write_file self candles directory st
  = (Raise (IOError msg),
     {| world := w2; sent := sent st; written := written st;
        log := log st
                 ++ [(ERROR,
                      "Failed to write data to " +:+ file_path +:+ ": "
                        +:+ msg)];
        stdout := stdout st |}).
Proof.
  intros file_path Hdir Hwrite.
  pose proof (save_to_csv_cases self candles directory st) as E.
  cbv zeta in E. rewrite E, Hdir. cbn [fst snd]. fold file_path.
  by rewrite Hwrite.
Qed.

(** X9: when the directory is missing and cannot be made, [save_to_csv]
    raises the error of [os.makedirs] as it is: nothing is handed to the
    logger, and the file is not tried, whatever writing it would do. *)
Theorem save_to_csv_makedirs_failure self candles directory st w1 msg :
  path_exists directory (world st) = false ->
  makedirs directory (world st) = (Some msg, w1) ->
  save_to_csv path_exists makedirs write_file self candles directory st
  = (Raise (IOError msg),
     {| world := w1; sent := sent st; written := written st;
        log := log st; stdout := stdout st |}).
Proof.
  intros Hp Hm.
  pose proof (save_to_csv_cases self candles directory st) as E.
  cbv zeta in E. by rewrite E, Hp, Hm.
Qed.

End Save.

(** X10: a directory that exists is not made again: [save_to_csv] does the
    same whatever [os.makedirs] would do. *)
Theorem save_to_csv_existing_directory {World : Type}
    (path_exists : string -> World -> bool)
    (makedirs makedirs' : string -> World -> option string * World)
    (write_file : string -> string -> World -> option string * World)
    (self : BybitConnector) (candles : list Candle) (directory : string)
    (st : State World) :
  path_exists directory (world st) = true ->
  save_to_csv path_exists makedirs write_file self candles directory st
  = save_to_csv path_exists makedirs' write_file self candles directory st.
Proof.
  intros Hp.
  pose proof (save_to_csv_cases _ path_exists makedirs write_file self
                candles directory st) as E.
  pose proof (save_to_csv_cases _ path_exists makedirs' write_file self
                candles directory st) as E'.
  cbv zeta in E, E'. rewrite E, E', Hp. reflexivity.
Qed.

Lemma prefix_slash_app s t :
  s <> "" -> String.prefix "/" (s +:+ t) = String.prefix "/" s.
Proof. destruct s as [|c s]; [done|]. intros _. simpl. by destruct s, t. Qed.

Lemma prefix_slash_cons c s :
  String.prefix "/" (String c s) = true <-> c = "/"%char.
Proof.
  cbn [String.prefix]. destruct (Ascii.ascii_dec "/" c) as [<-|Hn].
  - by destruct s.
  - split; [done|]. by intros ->.
Qed.

Lemma ends_with_slash_app c d acc :
  String.prefix "/" (String.rev_app (String c d) acc) = true
  <-> exists d', String c d = d' +:+ "/".
Proof.
  revert c acc. induction d as [|c' d IH]; intros c acc.
  - change (String.rev_app (String c "") acc) with (String c acc).
    rewrite prefix_slash_cons. split.
    + intros ->. by exists "".
    + intros ([|a [|? ?]] & E); [|done|done].
      change ("" +:+ "/") with "/" in E. by simplify_eq.
  - change (String.rev_app (String c (String c' d)) acc)
      with (String.rev_app (String c' d) (String c acc)).
    rewrite IH. split.
    + intros (d' & ->). exists (String c d'). by rewrite string_app_cons.
    + intros ([|a d'] & E); [done|].
      rewrite string_app_cons in E. simplify_eq. by exists d'.
Qed.

(** The test of [os.path.join] for a first part that ends with a slash. *)
Lemma ends_with_slash d :
  String.prefix "/" (String.rev d) = true <-> exists d', d = d' +:+ "/".
Proof.
  destruct d as [|c d]; [|apply ends_with_slash_app].
  split; [done|]. intros ([|? ?] & ?); done.
Qed.

(** X11: where [save_to_csv] puts the file, for a directory that has a
    name.  When the symbol starts with a slash the write goes to the file
    name alone and the directory, which was made, is ignored; otherwise
    the file name is put under the directory, with one slash between them
    unless the directory ends with a slash. *)
Theorem save_to_csv_path {World : Type}
    (path_exists : string -> World -> bool)
    (makedirs : string -> World -> option string * World)
    (write_file : string -> string -> World -> option string * World)
    (self : BybitConnector) (candles : list Candle) (directory : string)
    (st st' : State World) :
  directory <> "" ->
  save_to_csv path_exists makedirs write_file self candles directory st
  = (Return tt, st') ->
  let filename :=
    symbol self +:+ "_" +:+ interval self +:+ "_" +:+ start self +:+ "_"
      +:+ end_ self +:+ ".csv" in
  exists file_path text,
    written st' = written st ++ [(file_path, text)]
    /\ (String.prefix "/" (symbol self) = true -> file_path = filename)
    /\ (String.prefix "/" (symbol self) = false ->
        ((exists d, directory = d +:+ "/") ->
         file_path = directory +:+ filename)
        /\ (~ (exists d, directory = d +:+ "/") ->
            file_path = directory +:+ "/" +:+ filename)).
Proof.
  intros Hd Hrun filename.
  pose proof (save_to_csv_cases _ path_exists makedirs write_file self
                candles directory st) as E.
  cbv zeta in E. rewrite E in Hrun. fold filename in Hrun.
  destruct (fst _) as [msg|]; [done|].
  destruct (write_file _ _ _) as [[msg|] w]; [done|]. simplify_eq.
  do 2 eexists. split; [reflexivity|].
  assert (String.prefix "/" filename = String.prefix "/" (symbol self))
    as Hf.
  { unfold filename. destruct (symbol self) as [|c s] eqn:Es; [done|].
    by apply prefix_slash_app. }
  unfold os_path_join. rewrite Hf, bool_decide_eq_false_2 by done.
  split; [by intros ->|]. intros ->. simpl. split.
  - intros He. apply ends_with_slash in He. by rewrite He.
  - intros He.
    destruct (String.prefix "/" (String.rev directory)) eqn:Ep; [|done].
    by apply ends_with_slash in Ep.
Qed.


(** X13: whatever the interval code, the number of seconds returned is a
    multiple of 60 between 60 and 2592000, so the division by it in
    [get_prices] is always defined; and only the log can change. *)
Theorem interval_to_seconds_range {World : Type} (interval : string)
    (st : State World) :
  exists seconds st',
    _interval_to_seconds interval st = (Return seconds, st')
    /\ 60 <= seconds <= 2592000
    /\ seconds mod 60 = 0
    /\ world st' = world st /\ sent st' = sent st
    /\ written st' = written st /\ stdout st' = stdout st.
Proof.
  rewrite interval_to_seconds_run. do 2 eexists. split; [done|].
  split; [|split; [|done]].
  - destruct (conversion !! interval) as [seconds|] eqn:E; simpl; [|lia].
    apply elem_of_list_to_map_2 in E.
    repeat (apply elem_of_cons in E as [E|E]; [simplify_eq; lia|]).
    by apply elem_of_nil in E.
  - destruct (conversion !! interval) as [seconds|] eqn:E; simpl; [|done].
    apply elem_of_list_to_map_2 in E.
    repeat (apply elem_of_cons in E as [E|E]; [by simplify_eq|]).
    by apply elem_of_nil in E.
Qed.

(** ** Further properties of the older copy *)

Section Older.

Variable strptime : string -> string -> string + datetime.
Variable timestamp : datetime -> Z.
Variable World : Type.
Variable requests_get :
  string -> Params -> option Z -> World -> HttpResult * World.
Variable write_file : string -> string -> World -> option string * World.

Implicit Types (self : BybitConnector) (st : State World).

(** Every way one pass through the body of the older loop can end. *)
Lemma legacy_body_cases self limit end_timestamp seconds_per_candle
    all_candles batch_start st :
  let p :=
    request_of self limit end_timestamp seconds_per_candle batch_start in
  let answer := requests_get PRICE_API_URL p None (world st) in
  let st' := exchanged st p (fst answer) (snd answer) in
  Legacy.get_prices_body requests_get self limit end_timestamp
    seconds_per_candle all_candles batch_start st
  = match fst answer with
    | GetRaises kind msg => (Raise (RequestException kind msg), st')
    | GetReturns response =>
        match body response with
        | NotJson (RequestsJSONDecodeError msg) =>
            (Raise (JSONDecodeError msg), st')
        | NotJson (PlainJSONDecodeError msg) =>
            (Raise (ValueError msg None), st')
        | Json response_data =>
            if decide (status_code response <> 200
                       \/ retCode response_data <> Some 0)
            then
              (Raise (ValueError
                        ("API error: "
                           +:+ default "None" (retMsg response_data))
                        None), st')
            else
              match candles_of_data response_data with
              | [] => (Return (Break all_candles), st')
              | _ :: _ =>
                  (Return
                     (Continue
                        (all_candles ++ candles_of_data response_data)
                        (Z.min (batch_start + limit * seconds_per_candle)
                           end_timestamp)), st')
              end
        end
    end.
Proof.
  intros p answer st'. subst p answer st'.
  unfold Legacy.get_prices_body, bind, get, json, request_of, exchanged,
    ret, raise.
  destruct (requests_get _ _ None (world st)) as [[kind msg|response] w];
    cbn [fst snd]; [reflexivity|].
  destruct (body response) as [[msg|msg]|d]; cbn beta iota zeta;
    [reflexivity|reflexivity|].
  case_decide; [reflexivity|].
  unfold candles_of_data. by destruct (default [] _).
Qed.

Lemma legacy_while_step fuel self limit end_timestamp seconds_per_candle
    all_candles batch_start st :
  batch_start < end_timestamp ->
  Legacy.get_prices_while requests_get (S fuel) self limit end_timestamp
    seconds_per_candle all_candles batch_start st
  = match Legacy.get_prices_body requests_get self limit end_timestamp
            seconds_per_candle all_candles batch_start st with
    | (Return (Continue all_candles' batch_start'), st') =>
        Legacy.get_prices_while requests_get fuel self limit end_timestamp
          seconds_per_candle all_candles' batch_start' st'
    | (Return (Break all_candles'), st') => Some (Return all_candles', st')
    | (Raise e, st') => Some (Raise e, st')
    end.
Proof. intros H. simpl. case_decide; done || lia. Qed.

Lemma legacy_while_done fuel self limit end_timestamp seconds_per_candle
    all_candles batch_start st :
  end_timestamp <= batch_start ->
  Legacy.get_prices_while requests_get fuel self limit end_timestamp
    seconds_per_candle all_candles batch_start st
  = Some (Return all_candles, st).
Proof. intros H. destruct fuel; simpl; case_decide; done || lia. Qed.

(** X14: the older [get_prices] lets the error of [strptime] through as it
    is, for the start and, when the start parses, for the end: the state
    is untouched, so no request was sent, and nothing tells which of the
    two strings it was. *)
Theorem legacy_get_prices_invalid_date self limit fuel st :
  (forall msg,
      strptime (start self) DATE_FORMAT = inl msg ->
      Legacy.get_prices strptime timestamp requests_get self limit fuel st
      = Some (Raise (ValueError msg None), st))
  /\ (forall ds msg,
        strptime (start self) DATE_FORMAT = inr ds ->
        strptime (end_ self) DATE_FORMAT = inl msg ->
        Legacy.get_prices strptime timestamp requests_get self limit fuel st
        = Some (Raise (ValueError msg None), st)).
Proof.
  split.
  - intros msg Es.
    unfold Legacy.get_prices, bind, Legacy._to_unix_timestamp.
    by rewrite Es.
  - intros ds msg Es Ee.
    unfold Legacy.get_prices, bind, Legacy._to_unix_timestamp.
    by rewrite Es, Ee.
Qed.

(** X15: in the older loop an answer whose status is not 200 and whose
    body decodes raises the [ValueError] of an API error, even when its
    [retCode] is 0; its message ends with the [retMsg], or with [None] when
    there is none.  The candles gathered so far are not returned. *)
Theorem legacy_status_not_200 self limit end_timestamp seconds_per_candle
    fuel all_candles batch_start st response w response_data :
  batch_start < end_timestamp ->
  requests_get PRICE_API_URL
    (request_of self limit end_timestamp seconds_per_candle batch_start)
    None (world st) = (GetReturns response, w) ->
  body response = Json response_data ->
  status_code response <> 200 ->
  Legacy.get_prices_while requests_get (S fuel) self limit end_timestamp
    seconds_per_candle all_candles batch_start st
  = Some (Raise (ValueError
                   ("API error: " +:+ default "None" (retMsg response_data))
                   None),
          exchanged st
            (request_of self limit end_timestamp seconds_per_candle
               batch_start)
            (GetReturns response) w).
Proof.
  intros Hlt Hget Hb Hs. rewrite legacy_while_step by done.
  pose proof (legacy_body_cases self limit end_timestamp seconds_per_candle
                all_candles batch_start st) as E.
  cbv zeta in E. rewrite E, Hget. cbn [fst snd]. rewrite Hb.
  case_decide as Hd; [done|]. destruct Hd. by left.
Qed.

(** The two loops side by side on a network that does not look at the
    time-out and answers with status 200 and a body that decodes. *)
Lemma legacy_while_agrees fuel self limit end_timestamp seconds_per_candle
    all_candles batch_start (st st' : State World) :
  (forall p w,
      requests_get PRICE_API_URL p None w
      = requests_get PRICE_API_URL p (Some 10) w) ->
  (forall p w,
      exists response w' response_data,
        requests_get PRICE_API_URL p (Some 10) w = (GetReturns response, w')
        /\ status_code response = 200
        /\ body response = Json response_data
        /\ (retCode response_data = Some 0
            \/ is_Some (retMsg response_data))) ->
  world st = world st' -> sent st = sent st' ->
  same_fetch
    (Legacy.get_prices_while requests_get fuel self limit end_timestamp
       seconds_per_candle all_candles batch_start st)
    (get_prices_while requests_get fuel self limit end_timestamp
       seconds_per_candle all_candles batch_start st').
Proof.
  intros Htimeout Hnice. revert all_candles batch_start st st'.
  induction fuel as [|fuel IH]; intros all_candles batch_start st st' Hw Hs.
  - simpl. case_decide; done.
  - destruct (decide (batch_start < end_timestamp)) as [Hlt|Hge].
    2: { rewrite legacy_while_done, while_done by lia. done. }
    rewrite legacy_while_step, while_step by done.
    pose proof (legacy_body_cases self limit end_timestamp seconds_per_candle
                  all_candles batch_start st) as E.
    cbv zeta in E. rewrite E. clear E. rewrite Htimeout, Hw.
    destruct (Hnice (request_of self limit end_timestamp seconds_per_candle
                       batch_start) (world st'))
      as (response & w' & d & Hget & Hstatus & Hb & Hmsg).
    rewrite Hget. cbn [fst snd]. rewrite Hb.
    assert (passes_status response) as Hp
      by (unfold passes_status; lia).
    destruct (decide (retCode d = Some 0)) as [Hc|Hc].
    + case_decide as Hd; [by destruct Hd|].
      destruct (candles_of_data d) as [|c cs] eqn:He.
      * erewrite body_empty_page by done. simpl. by rewrite Hs.
      * erewrite body_page by (done || by rewrite He). rewrite He.
        apply IH; simpl; [done|by rewrite Hs].
    + case_decide as Hd; [|destruct Hd; by right].
      destruct Hmsg as [Hmsg|[msg Hmsg]]; [done|].
      pose proof (body_api_error _ requests_get self limit end_timestamp
                    seconds_per_candle all_candles batch_start st' _ _ _
                    Hget Hp Hb Hc) as E.
      simpl in E. rewrite E, Hmsg. simpl. by rewrite Hs.
Qed.

(** X16: the module and its older copy fetch the same.  On a network that
    does not look at the time-out and always answers with status 200 and a
    body that decodes, with a [retMsg] whenever the [retCode] is not 0, and
    for dates that parse, the two [get_prices] end alike for every fuel:
    the same list or the same error, after the same exchanges. *)
Theorem legacy_get_prices_agrees self limit fuel st ds de :
  strptime (start self) DATE_FORMAT = inr ds ->
  strptime (end_ self) DATE_FORMAT = inr de ->
  (forall p w,
      requests_get PRICE_API_URL p None w
      = requests_get PRICE_API_URL p (Some 10) w) ->
  (forall p w,
      exists response w' response_data,
        requests_get PRICE_API_URL p (Some 10) w = (GetReturns response, w')
        /\ status_code response = 200
        /\ body response = Json response_data
        /\ (retCode response_data = Some 0
            \/ is_Some (retMsg response_data))) ->
  same_fetch
    (Legacy.get_prices strptime timestamp requests_get self limit fuel st)
    (get_prices strptime timestamp requests_get self limit fuel st).
Proof.
  intros Es Ee Htimeout Hnice.
  erewrite get_prices_valid; [|exact Es|exact Ee|apply interval_to_seconds_run].
  unfold Legacy.get_prices, bind, Legacy._to_unix_timestamp.
  rewrite Es, Ee. cbn beta iota zeta. unfold ret.
  unfold Legacy._interval_to_seconds.
  pose proof (legacy_while_agrees fuel self limit (timestamp de)
                (default 86400 (conversion !! interval self)) []
                (timestamp ds) st
                (logged st
                   (if decide (conversion !! interval self = None)
                    then [(WARNING,
                           "Unknown interval '" +:+ interval self
                             +:+ "'. Defaulting to 'D' (86400 seconds).")]
                    else []))
                Htimeout Hnice eq_refl eq_refl) as H.
  destruct (Legacy.get_prices_while _ _ _ _ _ _ _ _ _) as [[o1 t1]|];
    destruct (get_prices_while _ _ _ _ _ _ _ _ _) as [[o2 t2]|];
    try done.
  destruct H as (-> & Hw & Hs). by destruct o2.
Qed.

(** X17: the older [save_to_csv] writes, in the current directory, a
    header of six names and the candles, which read back as they were; it
    then prints one line.  When the file cannot be written the error is
    raised as it is and nothing is printed. *)
Theorem legacy_save_to_csv self candles st :
  let filename :=
    symbol self +:+ "_" +:+ interval self +:+ "_" +:+ start self +:+ "_"
      +:+ end_ self +:+ ".csv" in
  let text := writerow Legacy.HEADER +:+ writerows candles in
  Legacy.save_to_csv write_file self candles st
  = match write_file filename text (world st) with
    | (None, w) =>
        (Return tt,
         {| world := w; sent := sent st;
            written := written st ++ [(filename, text)]; log := log st;
            stdout := stdout st ++ ["Data has been saved to " +:+ filename]
         |})
    | (Some msg, w) =>
        (Raise (IOError msg),
         {| world := w; sent := sent st; written := written st;
            log := log st; stdout := stdout st |})
    end
  /\ reader text parse_reset
     = Some (["timestamp"; "open"; "high"; "low"; "close"; "volume"]
               :: candles).
Proof.
  intros filename text. split.
  - unfold Legacy.save_to_csv, bind, open_write, print. fold filename text.
    by destruct (write_file filename text (world st)) as [[msg|] w].
  - apply (reader_writerows (Legacy.HEADER :: candles)).
Qed.

End Older.

(** ** The example at the foot of the module *)

(** X18: the example asks for nothing.  Its window, of three days, is
    shorter than its interval, of one month: when the clock reads the two
    dates with less than 2592000 seconds between them, [main] ends, for
    every fuel of at least 1, after exactly one request, for 0 candles; if
    it writes a file, it is the one named after the example. *)
Theorem main_single_request
    (strptime : string -> string -> string + datetime)
    (timestamp : datetime -> Z) (World : Type)
    (requests_get :
       string -> Params -> option Z -> World -> HttpResult * World)
    (path_exists : string -> World -> bool)
    (makedirs : string -> World -> option string * World)
    (write_file : string -> string -> World -> option string * World)
    (fuel : nat) (st : State World) (ds de : datetime) :
  strptime "2024-12-01 00:00:00" DATE_FORMAT = inr ds ->
  strptime "2024-12-04 00:00:00" DATE_FORMAT = inr de ->
  0 < timestamp de - timestamp ds < 2592000 ->
  exists outcome st' r,
    main strptime timestamp requests_get path_exists makedirs write_file
      (S fuel) st
    = Some (outcome, st')
    /\ sent st'
       = sent st
           ++ [({| p_category := "inverse"; p_symbol := "BTCUSD";
                   p_interval := "M"; p_start := timestamp ds;
                   p_limit := 0 |}, r)]
    /\ (written st' = written st
        \/ exists text,
             written st'
             = written st
                 ++ [("./data/raw/BTCUSD_M_2024-12-01 00:00:00_2024-12-04 00:00:00.csv",
                      text)]).
Proof.
  intros Es Ee Hshort. unfold main, __init__.
  set (self := {| category := "inverse"; symbol := "BTCUSD";
                  interval := "M"; start := "2024-12-01 00:00:00";
                  end_ := "2024-12-04 00:00:00" |}).
  set (p := {| p_category := "inverse"; p_symbol := "BTCUSD";
               p_interval := "M"; p_start := timestamp ds; p_limit := 0 |}).
  assert (_interval_to_seconds (interval self) st = (Return 2592000, st))
    as Ei.
  { rewrite interval_to_seconds_run. change (interval self) with "M".
    assert (conversion !! "M" = Some 2592000) as -> by reflexivity.
    simpl. by rewrite logged_nil. }
  erewrite get_prices_valid; [|exact Es|exact Ee|exact Ei].
  rewrite while_step by lia.
  assert (request_of self 1000 (timestamp de) 2592000 (timestamp ds) = p)
    as Hp.
  { unfold request_of, p. simpl. f_equal. apply Z.div_small. lia. }
  assert (forall candles (st1 : State World) r,
             sent st1 = sent st ++ [(p, r)] ->
             written st1 = written st ->
             exists outcome st' r',
               Some (save_to_csv path_exists makedirs write_file self
                       candles "./data/raw" st1)
               = Some (outcome, st')
               /\ sent st' = sent st ++ [(p, r')]
               /\ (written st' = written st
                   \/ exists text,
                        written st'
                        = written st
                            ++ [("./data/raw/BTCUSD_M_2024-12-01 00:00:00_2024-12-04 00:00:00.csv",
                                 text)])) as Hsave.
  { intros candles st1 r Hs Hw.
    pose proof (save_to_csv_cases _ path_exists makedirs write_file self
                  candles "./data/raw" st1) as E.
    cbv zeta in E. rewrite E. clear E.
    destruct (fst _) as [msg|].
    - do 2 eexists. exists r. split; [done|]. split; [exact Hs|]. by left.
    - destruct (write_file _ _ _) as [[msg|] w].
      + do 2 eexists. exists r. split; [done|]. split; [exact Hs|]. by left.
      + do 2 eexists. exists r. split; [done|]. split; [exact Hs|]. right.
        eexists. simpl. rewrite Hw. reflexivity. }
  destruct (get_prices_body requests_get self 1000 (timestamp de) 2592000
              [] (timestamp ds) st) as [[[a b|a]|e] st2] eqn:Eb;
    apply body_cases in Eb as (r & Hs & Hw & _ & Hcase); rewrite Hp in Hs.
  - destruct Hcase as (_ & _ & ->). rewrite while_done by lia.
    by apply (Hsave _ _ r).
  - by apply (Hsave _ _ r).
  - do 2 eexists. exists r. split; [done|]. split; [done|]. by left.
Qed.

(** ** The further properties on the reference environment *)

Lemma get_prices_undecodable_body_witness :
  exists st',
    get_prices Reference.strptime Reference.timestamp Reference.scripted
      (Reference.connector "D" "2024-12-01 00:00:00" "2024-12-04 12:00:00")
      2 (1 + 1)
      (Reference.fresh
         [GetReturns
            (Reference.page 200 [Reference.candle; Reference.candle]);
          GetReturns
            {| status_code := 200; reason := "OK"; url := PRICE_API_URL;
               body := NotJson (PlainJSONDecodeError "Expecting value") |}])
    = Some (Raise (ValueError "Expecting value" None), st')
    /\ length (sent st') = 2%nat
    /\ log st'
       = [(CRITICAL,
           "Unexpected error during API request: Expecting value")].
Proof.
  edestruct (get_prices_undecodable_body Reference.strptime
               Reference.timestamp (list HttpResult) Reference.scripted
               (Reference.connector "D" "2024-12-01 00:00:00"
                  "2024-12-04 12:00:00")
               2 0
               (Reference.fresh
                  [GetReturns
                     (Reference.page 200
                        [Reference.candle; Reference.candle]);
                   GetReturns
                     {| status_code := 200; reason := "OK";
                        url := PRICE_API_URL;
                        body :=
                          NotJson (PlainJSONDecodeError "Expecting value")
                     |}])
               {| year := 2024; month := 12; day := 1; hour := 0;
                  minute := 0; second := 0 |}
               {| year := 2024; month := 12; day := 4; hour := 12;
                  minute := 0; second := 0 |}
               86400
               (Reference.fresh
                  [GetReturns
                     (Reference.page 200
                        [Reference.candle; Reference.candle]);
                   GetReturns
                     {| status_code := 200; reason := "OK";
                        url := PRICE_API_URL;
                        body :=
                          NotJson (PlainJSONDecodeError "Expecting value")
                     |}])
               1)
    as [Hrun _].
  - vm_compute. reflexivity.
  - vm_compute. reflexivity.
  - vm_compute. reflexivity.
  - vm_compute. reflexivity.
  - vm_compute. reflexivity.
  - vm_compute. reflexivity.
  - unfold passes_status. simpl. lia.
  - reflexivity.
  - eexists. split; [exact Hrun|]. split; reflexivity.
Defined.

Lemma get_prices_returns_pages_witness :
  exists outcome st' history,
    get_prices Reference.strptime Reference.timestamp Reference.exact
      (Reference.connector "D" "2024-12-01 00:00:00" "2024-12-04 12:00:00")
      2 2 (Reference.fresh tt)
    = Some (outcome, st')
    /\ sent st' = [] ++ history
    /\ forall rows,
         outcome = Return rows ->
         rows = fetched history
         /\ last (log st')
            = Some (INFO,
                    "Fetched " +:+ pretty (length rows)
                      +:+ " candlesticks.").
Proof.
  eapply (get_prices_returns_pages Reference.strptime Reference.timestamp
            unit Reference.exact
            (Reference.connector "D" "2024-12-01 00:00:00"
               "2024-12-04 12:00:00")
            2 (Reference.fresh tt)
            {| year := 2024; month := 12; day := 1; hour := 0; minute := 0;
               second := 0 |}
            {| year := 2024; month := 12; day := 4; hour := 12; minute := 0;
               second := 0 |}
            86400 (Reference.fresh tt) 2).
  - vm_compute. reflexivity.
  - vm_compute. reflexivity.
  - vm_compute. reflexivity.
  - lia.
  - vm_compute. discriminate.
Defined.

Lemma get_prices_request_grid_witness :
  exists outcome st' history,
    get_prices Reference.strptime Reference.timestamp Reference.exact
      (Reference.connector "D" "2024-12-01 00:00:00" "2024-12-04 12:00:00")
      2 2 (Reference.fresh tt)
    = Some (outcome, st')
    /\ sent st' = [] ++ history
    /\ forall (i : nat) p r,
         history !! i = Some (p, r) ->
         p_category p = "inverse"
         /\ p_symbol p = "BTCUSD"
         /\ p_interval p = "D"
         /\ p_start p
            = Reference.timestamp
                {| year := 2024; month := 12; day := 1; hour := 0;
                   minute := 0; second := 0 |}
              + Z.of_nat i * (2 * 86400)
         /\ p_start p
            < Reference.timestamp
                {| year := 2024; month := 12; day := 4; hour := 12;
                   minute := 0; second := 0 |}
         /\ 0 <= p_limit p <= 2
         /\ p_start p + p_limit p * 86400
            <= Reference.timestamp
                 {| year := 2024; month := 12; day := 4; hour := 12;
                    minute := 0; second := 0 |}.
Proof.
  eapply (get_prices_request_grid Reference.strptime Reference.timestamp
            unit Reference.exact
            (Reference.connector "D" "2024-12-01 00:00:00"
               "2024-12-04 12:00:00")
            2 (Reference.fresh tt)
            {| year := 2024; month := 12; day := 1; hour := 0; minute := 0;
               second := 0 |}
            {| year := 2024; month := 12; day := 4; hour := 12; minute := 0;
               second := 0 |}
            86400 (Reference.fresh tt) 2).
  - vm_compute. reflexivity.
  - vm_compute. reflexivity.
  - vm_compute. reflexivity.
  - lia.
  - vm_compute. discriminate.
Defined.

Lemma get_prices_short_window_witness :
  exists outcome st' r,
    get_prices Reference.strptime Reference.timestamp Reference.exact
      (Reference.connector "D" "2024-12-01 00:00:00" "2024-12-01 12:00:00")
      1000 1 (Reference.fresh tt)
    = Some (outcome, st')
    /\ sent st'
       = [] ++ [({| p_category := "inverse"; p_symbol := "BTCUSD";
                    p_interval := "D"; p_start := 1733011200;
                    p_limit := 0 |}, r)].
Proof.
  eapply (get_prices_short_window Reference.strptime Reference.timestamp
            unit Reference.exact
            (Reference.connector "D" "2024-12-01 00:00:00"
               "2024-12-01 12:00:00")
            1000 (Reference.fresh tt)
            {| year := 2024; month := 12; day := 1; hour := 0; minute := 0;
               second := 0 |}
            {| year := 2024; month := 12; day := 1; hour := 12; minute := 0;
               second := 0 |}
            86400 (Reference.fresh tt) 0).
  - vm_compute. reflexivity.
  - vm_compute. reflexivity.
  - vm_compute. reflexivity.
  - lia.
  - vm_compute. split; reflexivity.
Defined.

Lemma get_prices_limit_not_positive_witness :
  get_prices Reference.strptime Reference.timestamp Reference.steady
    (Reference.connector "D" "2024-12-01 00:00:00" "2024-12-02 00:00:00")
    (-5) 50 (Reference.fresh tt)
  = None.
Proof.
  eapply (get_prices_limit_not_positive Reference.strptime
            Reference.timestamp unit Reference.steady
            (Reference.connector "D" "2024-12-01 00:00:00"
               "2024-12-02 00:00:00")
            (-5) (Reference.fresh tt)).
  - vm_compute. reflexivity.
  - vm_compute. reflexivity.
  - vm_compute. reflexivity.
  - lia.
  - intros p w. do 3 eexists. split; [reflexivity|].
    split; [unfold passes_status; simpl; lia|].
    split; [reflexivity|]. split; [reflexivity|]. discriminate.
Defined.


Lemma save_to_csv_write_failure_witness :
  exists st',
    save_to_csv Reference.present Reference.mkdirs
      (fun (path text : string) (w : unit) => (Some "No space left", w))
      (Reference.connector "D" "2024-12-01 00:00:00" "2024-12-02 00:00:00")
      [Reference.candle] "./data/raw" (Reference.fresh tt)
    = (Raise (IOError "No space left"), st')
    /\ written st' = [].
Proof.
  eexists. split.
  - apply (save_to_csv_write_failure unit Reference.present
             Reference.mkdirs
             (fun (path text : string) (w : unit) =>
                (Some "No space left", w))
             (Reference.connector "D" "2024-12-01 00:00:00"
                "2024-12-02 00:00:00")
             [Reference.candle] "./data/raw" (Reference.fresh tt) tt tt
             "No space left" eq_refl eq_refl).
  - reflexivity.
Defined.

Lemma save_to_csv_makedirs_failure_witness :
  save_to_csv (fun (path : string) (w : unit) => false)
    (fun (path : string) (w : unit) => (Some "Permission denied", w))
    Reference.store
    (Reference.connector "D" "2024-12-01 00:00:00" "2024-12-02 00:00:00")
    [Reference.candle] "/data/raw" (Reference.fresh tt)
  = (Raise (IOError "Permission denied"), Reference.fresh tt).
Proof.
  apply (save_to_csv_makedirs_failure unit
           (fun (path : string) (w : unit) => false)
           (fun (path : string) (w : unit) => (Some "Permission denied", w))
           Reference.store
           (Reference.connector "D" "2024-12-01 00:00:00"
              "2024-12-02 00:00:00")
           [Reference.candle] "/data/raw" (Reference.fresh tt) tt
           "Permission denied" eq_refl eq_refl).
Defined.

Lemma save_to_csv_existing_directory_witness :
  save_to_csv Reference.present Reference.mkdirs Reference.store
    (Reference.connector "D" "2024-12-01 00:00:00" "2024-12-02 00:00:00")
    [Reference.candle] "./data/raw" (Reference.fresh tt)
  = save_to_csv Reference.present
      (fun (path : string) (w : unit) => (Some "Permission denied", w))
      Reference.store
      (Reference.connector "D" "2024-12-01 00:00:00" "2024-12-02 00:00:00")
      [Reference.candle] "./data/raw" (Reference.fresh tt).
Proof.
  apply (save_to_csv_existing_directory Reference.present Reference.mkdirs
           (fun (path : string) (w : unit) => (Some "Permission denied", w))
           Reference.store
           (Reference.connector "D" "2024-12-01 00:00:00"
              "2024-12-02 00:00:00")
           [Reference.candle] "./data/raw" (Reference.fresh tt) eq_refl).
Defined.

Lemma save_to_csv_path_witness :
  exists st',
    save_to_csv Reference.present Reference.mkdirs Reference.store
      (Reference.connector "D" "2024-12-01 00:00:00" "2024-12-02 00:00:00")
      [Reference.candle] "./data/raw" (Reference.fresh tt)
    = (Return tt, st')
    /\ exists text,
         written st'
         = [("./data/raw/BTCUSD_D_2024-12-01 00:00:00_2024-12-02 00:00:00.csv",
             text)].
Proof.
  edestruct (save_to_csv_path Reference.present Reference.mkdirs
               Reference.store
               (Reference.connector "D" "2024-12-01 00:00:00"
                  "2024-12-02 00:00:00")
               [Reference.candle] "./data/raw" (Reference.fresh tt))
    as (file_path & text & Hw & _ & Hp).
  - discriminate.
  - vm_compute. reflexivity.
  - eexists. split; [vm_compute; reflexivity|].
    destruct (Hp eq_refl) as [_ Hplain]. exists text.
    rewrite Hw, Hplain; [reflexivity|].
    intros He. apply ends_with_slash in He. vm_compute in He. discriminate.
Defined.


Lemma legacy_get_prices_invalid_date_witness :
  exists msg,
    Legacy.get_prices Reference.strptime Reference.timestamp Reference.exact
      (Reference.connector "D" "2024-12-01 25:00:00" "2024-12-02 00:00:00")
      1000 1 (Reference.fresh tt)
    = Some (Raise (ValueError msg None), Reference.fresh tt).
Proof.
  eexists.
  apply (proj1 (legacy_get_prices_invalid_date Reference.strptime
                  Reference.timestamp unit Reference.exact
                  (Reference.connector "D" "2024-12-01 25:00:00"
                     "2024-12-02 00:00:00")
                  1000 1 (Reference.fresh tt))).
  vm_compute. reflexivity.
Defined.

Lemma legacy_status_not_200_witness :
  exists st',
    Legacy.get_prices_while Reference.scripted 1
      (Reference.connector "D" "2024-12-01 00:00:00" "2024-12-02 00:00:00")
      1000 1733097600 86400 [] 1733011200
      (Reference.fresh [GetReturns (Reference.page 503 [Reference.candle])])
    = Some (Raise (ValueError "API error: OK" None), st').
Proof.
  eexists. etransitivity; [|reflexivity].
  apply (legacy_status_not_200 (list HttpResult) Reference.scripted
           (Reference.connector "D" "2024-12-01 00:00:00"
              "2024-12-02 00:00:00")
           1000 1733097600 86400 0 [] 1733011200
           (Reference.fresh
              [GetReturns (Reference.page 503 [Reference.candle])])
           (Reference.page 503 [Reference.candle]) []
           {| retCode := Some 0; retMsg := Some "OK";
              result := Some {| result_list := Some [Reference.candle] |} |}).
  - lia.
  - reflexivity.
  - reflexivity.
  - simpl. lia.
Defined.

Lemma legacy_get_prices_agrees_witness :
  same_fetch
    (Legacy.get_prices Reference.strptime Reference.timestamp
       Reference.exact
       (Reference.connector "D" "2024-12-01 00:00:00" "2024-12-04 12:00:00")
       2 2 (Reference.fresh tt))
    (get_prices Reference.strptime Reference.timestamp Reference.exact
       (Reference.connector "D" "2024-12-01 00:00:00" "2024-12-04 12:00:00")
       2 2 (Reference.fresh tt)).
Proof.
  eapply (legacy_get_prices_agrees Reference.strptime Reference.timestamp
            unit Reference.exact
            (Reference.connector "D" "2024-12-01 00:00:00"
               "2024-12-04 12:00:00")
            2 2 (Reference.fresh tt)).
  - vm_compute. reflexivity.
  - vm_compute. reflexivity.
  - reflexivity.
  - intros p w. do 3 eexists. split; [reflexivity|].
    split; [reflexivity|]. split; [reflexivity|]. by left.
Defined.

Lemma main_single_request_witness :
  exists outcome st' r,
    main Reference.strptime Reference.timestamp Reference.exact
      Reference.present Reference.mkdirs Reference.store 1
      (Reference.fresh tt)
    = Some (outcome, st')
    /\ sent st'
       = [] ++ [({| p_category := "inverse"; p_symbol := "BTCUSD";
                    p_interval := "M"; p_start := 1733011200;
                    p_limit := 0 |}, r)]
    /\ (written st' = []
        \/ exists text,
             written st'
             = [] ++ [("./data/raw/BTCUSD_M_2024-12-01 00:00:00_2024-12-04 00:00:00.csv",
                       text)]).
Proof.
  eapply (main_single_request Reference.strptime Reference.timestamp unit
            Reference.exact Reference.present Reference.mkdirs
            Reference.store 0 (Reference.fresh tt)
            {| year := 2024; month := 12; day := 1; hour := 0; minute := 0;
               second := 0 |}
            {| year := 2024; month := 12; day := 4; hour := 0; minute := 0;
               second := 0 |}).
  - vm_compute. reflexivity.
  - vm_compute. reflexivity.
  - vm_compute. split; reflexivity.
Defined.

(** ** The log of an API error *)

(** X19: an API error is logged twice.  When the page that follows [n]
    pages of candles was transported and its [retCode] is not 0, the state
    [get_prices] ends in has exactly two more log records than before the
    request: one at level ERROR from the check of the [retCode], and one at
    level CRITICAL from the handler of [Exception], which catches the
    [ValueError] just raised and re-raises it; and one more exchange. *)
Theorem get_prices_api_error_log
    (strptime : string -> string -> string + datetime)
    (timestamp : datetime -> Z) (World : Type)
    (requests_get :
       string -> Params -> option Z -> World -> HttpResult * World)
    (self : BybitConnector) (limit : Z) (fuel : nat) (st : State World)
    (ds de : datetime) (seconds : Z) (st1 : State World) (n : nat)
    (all_candles : list Candle) (batch_start : Z) (st2 : State World)
    (response : Response) (w : World) (response_data : ResponseData) :
  strptime (start self) DATE_FORMAT = inr ds ->
  strptime (end_ self) DATE_FORMAT = inr de ->
  _interval_to_seconds (interval self) st = (Return seconds, st1) ->
  passes requests_get n self limit (timestamp de) seconds [] (timestamp ds)
    st1 = Some (all_candles, batch_start, st2) ->
  batch_start < timestamp de ->
  requests_get PRICE_API_URL
    (request_of self limit (timestamp de) seconds batch_start) (Some 10)
    (world st2) = (GetReturns response, w) ->
  passes_status response ->
  body response = Json response_data ->
  retCode response_data <> Some 0 ->
  let error_message :=
    default "Unknown error from API." (retMsg response_data) in
  exists e st',
    get_prices strptime timestamp requests_get self limit (n + S fuel) st
    = Some (Raise e, st')
    /\ log st'
       = log st2
           ++ [(ERROR, "API returned an error: " +:+ error_message);
               (CRITICAL,
                "Unexpected error during API request: " +:+ str e)]
    /\ str e = "API error: " +:+ error_message
    /\ sent st'
       = sent st2
           ++ [(request_of self limit (timestamp de) seconds batch_start,
                GetReturns response)]
    /\ world st' = w.
Proof.
  intros Es Ee Ei Ep Hlt Hget Hs Hb Hc error_message.
  erewrite get_prices_valid by done.
  erewrite while_after by exact Ep.
  rewrite while_step by done.
  pose proof (body_api_error _ requests_get self limit (timestamp de)
                seconds all_candles batch_start st2 _ _ _ Hget Hs Hb Hc)
    as Eb.
  simpl in Eb. rewrite Eb. do 2 eexists. split; [done|]. done.
Qed.

Lemma get_prices_api_error_log_witness :
  exists e st',
    get_prices Reference.strptime Reference.timestamp Reference.scripted
      (Reference.connector "D" "2024-12-01 00:00:00" "2024-12-02 00:00:00")
      1000 (0 + 1)
      (Reference.fresh
         [GetReturns
            {| status_code := 200; reason := "OK"; url := PRICE_API_URL;
               body := Json {| retCode := Some 10001;
                               retMsg := Some "API error";
                               result := None |} |}])
    = Some (Raise e, st')
    /\ log st'
       = [] ++ [(ERROR, "API returned an error: " +:+ "API error");
                (CRITICAL,
                 "Unexpected error during API request: " +:+ str e)]
    /\ str e = "API error: " +:+ "API error".
Proof.
  edestruct (get_prices_api_error_log Reference.strptime
               Reference.timestamp (list HttpResult) Reference.scripted
               (Reference.connector "D" "2024-12-01 00:00:00"
                  "2024-12-02 00:00:00")
               1000 0
               (Reference.fresh
                  [GetReturns
                     {| status_code := 200; reason := "OK";
                        url := PRICE_API_URL;
                        body := Json {| retCode := Some 10001;
                                        retMsg := Some "API error";
                                        result := None |} |}])
               {| year := 2024; month := 12; day := 1; hour := 0;
                  minute := 0; second := 0 |}
               {| year := 2024; month := 12; day := 2; hour := 0;
                  minute := 0; second := 0 |}
               86400
               (Reference.fresh
                  [GetReturns
                     {| status_code := 200; reason := "OK";
                        url := PRICE_API_URL;
                        body := Json {| retCode := Some 10001;
                                        retMsg := Some "API error";
                                        result := None |} |}])
               0)
    as (e & st' & Hrun & Hlog & Hstr & _).
  - vm_compute. reflexivity.
  - vm_compute. reflexivity.
  - vm_compute. reflexivity.
  - reflexivity.
  - vm_compute. reflexivity.
  - reflexivity.
  - unfold passes_status. simpl. lia.
  - reflexivity.
  - simpl. discriminate.
  - exists e, st'. split; [exact Hrun|]. split; [exact Hlog|exact Hstr].
Defined.
